(** * RTRPlanningContext: a shallow embedding of rtr_planning_context.cpp

    The planning context resolves one motion-planning request against a
    precomputed roadmap.  The embedding follows the C++ member functions
    one by one: [configure], [initRapidPlanGoals], [getRapidPlanGoal],
    [initStartState] and [solve].  Everything the file calls but does not
    define (ROS time, the MoveIt scene and samplers, the roadmap search
    engine, the conversion helpers) is a field of the class [Env]; the
    members of the C++ object are the fields of the record
    [RTRPlanningContext]; and a member function that reads the clock or
    talks to the engine is a computation in the monad [M], which threads
    the state of the outside world together with the log of the calls made
    to the engine. *)

From Stdlib Require Import String ZArith QArith Qabs Qround Bool Arith Lia Lqa List Permutation.
Import ListNotations.

Set Implicit Arguments.

(** ** Numbers, time and messages *)

(** A C++ [double] and a [float] are read as the rational they denote; the
    rounding of [float(d)] is the field [float_of_double] of [Env]. *)
Definition double := Q.
Definition float := Q.

(** [rtr::Config] is [std::vector<float>]. *)
Definition Config := list float.

(** [ros::Time] and [ros::Duration] hold seconds and nanoseconds as
    integers; both are counted here in nanoseconds. *)
Definition Time := Z.
Definition Duration := Z.

(** [ros::Duration(double)]: the whole seconds are [floor d], the
    nanoseconds the rounded rest, which together is [d * 1e9] rounded to
    the nearest integer. *)
Definition Duration_fromSec (d : double) : Duration :=
  Qfloor (d * (1000000000 # 1) + (1 # 2)).

(** [Duration::toSec()]. *)
Definition toSec (d : Duration) : double := d # 1000000000.

(** The constant [M_PI] of <cmath>, the double nearest to pi. *)
Definition M_PI : double := 884279719003555 # 281474976710656.

(** The values of [moveit_msgs::MoveItErrorCodes] that the context uses. *)
Inductive MoveItErrorCodes : Type :=
| SUCCESS
| FAILURE
| PLANNING_FAILED
| TIMED_OUT.

Definition val (c : MoveItErrorCodes) : Z :=
  match c with
  | SUCCESS => 1
  | FAILURE => 99999
  | PLANNING_FAILED => -1
  | TIMED_OUT => -6
  end.

(** [moveit_msgs::Constraints]: the planner only asks which of the three
    lists are empty and hands the message to the samplers. *)
Record JointConstraint : Type := {
  jc_joint_name : string;
  jc_position : double;
  jc_tolerance_above : double;
  jc_tolerance_below : double;
  jc_weight : double
}.

Record PositionConstraint : Type := { pc_link_name : string }.

Record OrientationConstraint : Type := { oc_link_name : string }.

Record Constraints : Type := {
  joint_constraints : list JointConstraint;
  position_constraints : list PositionConstraint;
  orientation_constraints : list OrientationConstraint
}.

(** [sensor_msgs::JointState]: two parallel arrays. *)
Record JointState : Type := {
  name : list string;
  position : list double
}.

Record RobotStateMsg : Type := { joint_state : JointState }.

Record MotionPlanRequest : Type := {
  start_state : RobotStateMsg;
  goal_constraints : list Constraints;
  allowed_planning_time : double
}.

(** ** Roadmap data *)

Inductive RapidPlanGoalType : Type := STATE_IDS.

Record RapidPlanGoal : Type := {
  type : RapidPlanGoalType;
  state_ids : list nat
}.

Record RoadmapVolume : Type := {
  base_frame : string;
  center : double * double * double;
  dimensions : double * double * double
}.

Record RoadmapSpecification : Type := {
  roadmap_id : string;
  volume : RoadmapVolume
}.

(** ** MoveIt's joint model group and samplers *)

Record JointModel : Type := { getName : string }.

Record JointModelGroup : Type := { getActiveJointModels : list JointModel }.

Definition getActiveJointModelNames (jmg : JointModelGroup) : list string :=
  map getName (getActiveJointModels jmg).

(** The two samplers [getRapidPlanGoal] builds, each configured with the
    goal constraint. *)
Inductive ConstraintSampler : Type :=
| JointConstraintSampler (c : Constraints)
| IKConstraintSampler (c : Constraints).

(** ** What a call can come to *)

(** [Done]: the call returns.  [Undefined]: the C++ has no defined
    behaviour (a null pointer dereferenced, a vector read or written past
    its end).  [OutOfFuel]: the sampling loop did not end within the
    number of rounds granted to the model. *)
Inductive outcome (A : Type) : Type :=
| Done (a : A)
| Undefined
| OutOfFuel.

Arguments Undefined {A}.
Arguments OutOfFuel {A}.

(** ** The collaborators *)

Class Env : Type := {
  (** state of everything outside the context: the clock, the random
      source of the samplers, the roadmap engine *)
  World : Type;
  RobotState : Type;
  PlanningScene : Type;
  ToolPose : Type;
  Voxel : Type;
  RobotTrajectory : Type;
  (** ROS and MoveIt *)
  now : World -> Time * World;
  getCurrentState : PlanningScene -> RobotState;
  getJointModelGroup : RobotState -> string -> option JointModelGroup;
  copyJointGroupPositions : RobotState -> string -> list double;
  setVariablePositions : list string -> list double -> RobotState -> RobotState;
  (** [UnionConstraintSampler(scene, group, samplers).sample(state, reference, attempts)] *)
  union_sampler_sample :
    PlanningScene -> string -> list ConstraintSampler ->
    RobotState -> RobotState -> nat -> World -> (bool * RobotState) * World;
  (** [new robot_trajectory::RobotTrajectory(state.getRobotModel(), group)] *)
  RobotTrajectory_new : RobotState -> string -> RobotTrajectory;
  float_of_double : double -> float;
  (** the roadmap search engine, [RTRPlannerInterface]; an out-parameter
      is given as it is before the call and returned as it is after *)
  isReady : World -> bool * World;
  initialize : World -> bool * World;
  getRoadmapConfigs :
    RoadmapSpecification -> list Config -> World -> (bool * list Config) * World;
  getRoadmapTransforms :
    RoadmapSpecification -> list ToolPose -> World -> (bool * list ToolPose) * World;
  planner_interface_solve :
    RoadmapSpecification -> Config -> RapidPlanGoal -> list Voxel -> double ->
    list Config -> World -> (bool * list Config) * World;
  (** helpers of rtr_conversions.h and roadmap_util.h *)
  planningSceneToRtrCollisionVoxels :
    PlanningScene -> RoadmapVolume -> list Voxel -> list Voxel;
  pathRtrToRobotTrajectory :
    list Config -> RobotState -> list string -> RobotTrajectory -> RobotTrajectory;
  (** [findClosestConfigs(config, configs, ids, distances, max_count, max_distance)],
      with [ids] and [distances] in and out *)
  findClosestConfigs :
    Config -> list Config -> list nat -> list float -> nat -> double ->
    list nat * list float
}.

Section PlanningContext.

Context {E : Env}.

(** ** The log of calls to the engine *)

(** One entry for each call of a method of [planner_interface_], with
    what the engine answered. *)
Inductive EngineCall : Type :=
| IsReady (answer : bool)
| Initialize (answer : bool)
| GetRoadmapConfigs (answer : bool) (configs : list Config)
| GetRoadmapTransforms (answer : bool) (poses : list ToolPose)
| Solve (start_config : Config) (goal : RapidPlanGoal) (timeout : double)
        (answer : bool) (solution_path : list Config).

Record State : Type := {
  world : World;
  calls : list EngineCall
}.

(** ** The monad of member functions *)

Definition M (A : Type) : Type := State -> outcome (A * State).

Definition ret {A : Type} (a : A) : M A := fun st => Done (a, st).

Definition bind {A B : Type} (m : M A) (k : A -> M B) : M B :=
  fun st =>
    match m st with
    | Done (a, st') => k a st'
    | Undefined => Undefined
    | OutOfFuel => OutOfFuel
    end.

Definition undefined {A : Type} : M A := fun _ => Undefined.

Definition out_of_fuel {A : Type} : M A := fun _ => OutOfFuel.

Definition lift {A : Type} (o : outcome A) : M A :=
  fun st =>
    match o with
    | Done a => Done (a, st)
    | Undefined => Undefined
    | OutOfFuel => OutOfFuel
    end.

(** [*p] for a pointer that may be null. *)
Definition deref {A : Type} (p : option A) : M A :=
  match p with
  | Some a => ret a
  | None => undefined
  end.

Notation "x <- m ;; k" := (bind m (fun x => k))
  (at level 100, m at next level, right associativity).

Notation "' pat <- m ;; k" := (bind m (fun x => match x with pat => k end))
  (at level 100, pat pattern, m at next level, right associativity).

(** [ros::Time::now()] *)
Definition Time_now : M Time :=
  fun st =>
    let (t, w) := now (world st) in
    Done (t, {| world := w; calls := calls st |}).

Definition sample (scene : PlanningScene) (group : string)
    (samplers : list ConstraintSampler) (sample_state reference : RobotState)
    (max_attempts : nat) : M (bool * RobotState) :=
  fun st =>
    let (r, w) :=
      union_sampler_sample scene group samplers sample_state reference
        max_attempts (world st) in
    Done (r, {| world := w; calls := calls st |}).

Definition planner_isReady : M bool :=
  fun st =>
    let (r, w) := isReady (world st) in
    Done (r, {| world := w; calls := calls st ++ [IsReady r] |}).

Definition planner_initialize : M bool :=
  fun st =>
    let (r, w) := initialize (world st) in
    Done (r, {| world := w; calls := calls st ++ [Initialize r] |}).

Definition planner_getRoadmapConfigs (roadmap : RoadmapSpecification)
    (configs : list Config) : M (bool * list Config) :=
  fun st =>
    let (r, w) := getRoadmapConfigs roadmap configs (world st) in
    Done (r, {| world := w;
                calls := calls st ++ [GetRoadmapConfigs (fst r) (snd r)] |}).

Definition planner_getRoadmapTransforms (roadmap : RoadmapSpecification)
    (poses : list ToolPose) : M (bool * list ToolPose) :=
  fun st =>
    let (r, w) := getRoadmapTransforms roadmap poses (world st) in
    Done (r, {| world := w;
                calls := calls st ++ [GetRoadmapTransforms (fst r) (snd r)] |}).

Definition planner_solve (roadmap : RoadmapSpecification) (start_config : Config)
    (goal : RapidPlanGoal) (collision_voxels : list Voxel) (timeout : double)
    (solution_path : list Config) : M (bool * list Config) :=
  fun st =>
    let (r, w) :=
      planner_interface_solve roadmap start_config goal collision_voxels
        timeout solution_path (world st) in
    Done (r, {| world := w;
                calls := calls st ++
                         [Solve start_config goal timeout (fst r) (snd r)] |}).

(** ** The members of the context *)

Record RTRPlanningContext : Type := {
  name_ : string;
  group_ : string;
  request_ : MotionPlanRequest;
  planning_scene_ : option PlanningScene;
  roadmap_ : RoadmapSpecification;
  configured_ : bool;
  terminate_plan_time_ : Time;
  jmg_ : option JointModelGroup;
  joint_model_names_ : list string;
  roadmap_configs_ : list Config;
  roadmap_poses_ : list ToolPose;
  goals_ : list RapidPlanGoal;
  goal_states_ : list (option RobotState);
  start_state_ : option RobotState
}.

Definition set_terminate_plan_time_ (ctx : RTRPlanningContext) (t : Time) :=
  {| name_ := name_ ctx; group_ := group_ ctx; request_ := request_ ctx;
     planning_scene_ := planning_scene_ ctx; roadmap_ := roadmap_ ctx;
     configured_ := configured_ ctx; terminate_plan_time_ := t;
     jmg_ := jmg_ ctx; joint_model_names_ := joint_model_names_ ctx;
     roadmap_configs_ := roadmap_configs_ ctx;
     roadmap_poses_ := roadmap_poses_ ctx; goals_ := goals_ ctx;
     goal_states_ := goal_states_ ctx; start_state_ := start_state_ ctx |}.

Definition set_jmg_ (ctx : RTRPlanningContext) (g : option JointModelGroup) :=
  {| name_ := name_ ctx; group_ := group_ ctx; request_ := request_ ctx;
     planning_scene_ := planning_scene_ ctx; roadmap_ := roadmap_ ctx;
     configured_ := configured_ ctx;
     terminate_plan_time_ := terminate_plan_time_ ctx;
     jmg_ := g; joint_model_names_ := joint_model_names_ ctx;
     roadmap_configs_ := roadmap_configs_ ctx;
     roadmap_poses_ := roadmap_poses_ ctx; goals_ := goals_ ctx;
     goal_states_ := goal_states_ ctx; start_state_ := start_state_ ctx |}.

Definition set_joint_model_names_ (ctx : RTRPlanningContext) (l : list string) :=
  {| name_ := name_ ctx; group_ := group_ ctx; request_ := request_ ctx;
     planning_scene_ := planning_scene_ ctx; roadmap_ := roadmap_ ctx;
     configured_ := configured_ ctx;
     terminate_plan_time_ := terminate_plan_time_ ctx;
     jmg_ := jmg_ ctx; joint_model_names_ := l;
     roadmap_configs_ := roadmap_configs_ ctx;
     roadmap_poses_ := roadmap_poses_ ctx; goals_ := goals_ ctx;
     goal_states_ := goal_states_ ctx; start_state_ := start_state_ ctx |}.

Definition set_roadmap_configs_ (ctx : RTRPlanningContext) (l : list Config) :=
  {| name_ := name_ ctx; group_ := group_ ctx; request_ := request_ ctx;
     planning_scene_ := planning_scene_ ctx; roadmap_ := roadmap_ ctx;
     configured_ := configured_ ctx;
     terminate_plan_time_ := terminate_plan_time_ ctx;
     jmg_ := jmg_ ctx; joint_model_names_ := joint_model_names_ ctx;
     roadmap_configs_ := l;
     roadmap_poses_ := roadmap_poses_ ctx; goals_ := goals_ ctx;
     goal_states_ := goal_states_ ctx; start_state_ := start_state_ ctx |}.

Definition set_roadmap_poses_ (ctx : RTRPlanningContext) (l : list ToolPose) :=
  {| name_ := name_ ctx; group_ := group_ ctx; request_ := request_ ctx;
     planning_scene_ := planning_scene_ ctx; roadmap_ := roadmap_ ctx;
     configured_ := configured_ ctx;
     terminate_plan_time_ := terminate_plan_time_ ctx;
     jmg_ := jmg_ ctx; joint_model_names_ := joint_model_names_ ctx;
     roadmap_configs_ := roadmap_configs_ ctx;
     roadmap_poses_ := l; goals_ := goals_ ctx;
     goal_states_ := goal_states_ ctx; start_state_ := start_state_ ctx |}.

Definition set_configured_ (ctx : RTRPlanningContext) (b : bool) :=
  {| name_ := name_ ctx; group_ := group_ ctx; request_ := request_ ctx;
     planning_scene_ := planning_scene_ ctx; roadmap_ := roadmap_ ctx;
     configured_ := b;
     terminate_plan_time_ := terminate_plan_time_ ctx;
     jmg_ := jmg_ ctx; joint_model_names_ := joint_model_names_ ctx;
     roadmap_configs_ := roadmap_configs_ ctx;
     roadmap_poses_ := roadmap_poses_ ctx; goals_ := goals_ ctx;
     goal_states_ := goal_states_ ctx; start_state_ := start_state_ ctx |}.

Definition set_goals_ (ctx : RTRPlanningContext) (l : list RapidPlanGoal) :=
  {| name_ := name_ ctx; group_ := group_ ctx; request_ := request_ ctx;
     planning_scene_ := planning_scene_ ctx; roadmap_ := roadmap_ ctx;
     configured_ := configured_ ctx;
     terminate_plan_time_ := terminate_plan_time_ ctx;
     jmg_ := jmg_ ctx; joint_model_names_ := joint_model_names_ ctx;
     roadmap_configs_ := roadmap_configs_ ctx;
     roadmap_poses_ := roadmap_poses_ ctx; goals_ := l;
     goal_states_ := goal_states_ ctx; start_state_ := start_state_ ctx |}.

Definition set_goal_states_ (ctx : RTRPlanningContext)
    (l : list (option RobotState)) :=
  {| name_ := name_ ctx; group_ := group_ ctx; request_ := request_ ctx;
     planning_scene_ := planning_scene_ ctx; roadmap_ := roadmap_ ctx;
     configured_ := configured_ ctx;
     terminate_plan_time_ := terminate_plan_time_ ctx;
     jmg_ := jmg_ ctx; joint_model_names_ := joint_model_names_ ctx;
     roadmap_configs_ := roadmap_configs_ ctx;
     roadmap_poses_ := roadmap_poses_ ctx; goals_ := goals_ ctx;
     goal_states_ := l; start_state_ := start_state_ ctx |}.

Definition set_start_state_ (ctx : RTRPlanningContext) (s : option RobotState) :=
  {| name_ := name_ ctx; group_ := group_ ctx; request_ := request_ ctx;
     planning_scene_ := planning_scene_ ctx; roadmap_ := roadmap_ ctx;
     configured_ := configured_ ctx;
     terminate_plan_time_ := terminate_plan_time_ ctx;
     jmg_ := jmg_ ctx; joint_model_names_ := joint_model_names_ ctx;
     roadmap_configs_ := roadmap_configs_ ctx;
     roadmap_poses_ := roadmap_poses_ ctx; goals_ := goals_ ctx;
     goal_states_ := goal_states_ ctx; start_state_ := s |}.

(** The base class's [setPlanningScene] and [setMotionPlanRequest]. *)
Definition setPlanningScene (ctx : RTRPlanningContext) (s : option PlanningScene) :=
  {| name_ := name_ ctx; group_ := group_ ctx; request_ := request_ ctx;
     planning_scene_ := s; roadmap_ := roadmap_ ctx;
     configured_ := configured_ ctx;
     terminate_plan_time_ := terminate_plan_time_ ctx;
     jmg_ := jmg_ ctx; joint_model_names_ := joint_model_names_ ctx;
     roadmap_configs_ := roadmap_configs_ ctx;
     roadmap_poses_ := roadmap_poses_ ctx; goals_ := goals_ ctx;
     goal_states_ := goal_states_ ctx; start_state_ := start_state_ ctx |}.

Definition setMotionPlanRequest (ctx : RTRPlanningContext) (r : MotionPlanRequest) :=
  {| name_ := name_ ctx; group_ := group_ ctx; request_ := r;
     planning_scene_ := planning_scene_ ctx; roadmap_ := roadmap_ ctx;
     configured_ := configured_ ctx;
     terminate_plan_time_ := terminate_plan_time_ ctx;
     jmg_ := jmg_ ctx; joint_model_names_ := joint_model_names_ ctx;
     roadmap_configs_ := roadmap_configs_ ctx;
     roadmap_poses_ := roadmap_poses_ ctx; goals_ := goals_ ctx;
     goal_states_ := goal_states_ ctx; start_state_ := start_state_ ctx |}.

(** ** The constructor (lines 62-76)

    The roadmap's volume is overwritten with the fixed unit box; the
    members the initialiser list does not name start empty, and
    [configured_] starts false. *)
Definition RTRPlanningContext_new (planning_group : string)
    (roadmap_spec : RoadmapSpecification) : RTRPlanningContext :=
  {| name_ := (planning_group ++ "[" ++ roadmap_id roadmap_spec ++ "]")%string;
     group_ := planning_group;
     request_ :=
       {| start_state := {| joint_state := {| name := []; position := [] |} |};
          goal_constraints := [];
          allowed_planning_time := 0 |};
     planning_scene_ := None;
     roadmap_ :=
       {| roadmap_id := roadmap_id roadmap_spec;
          volume :=
            {| base_frame := "base_link";
               center := (1 # 10, 1 # 10, 1 # 10);
               dimensions := (1, 1, 1) |} |};
     configured_ := false;
     terminate_plan_time_ := 0%Z;
     jmg_ := None;
     joint_model_names_ := [];
     roadmap_configs_ := [];
     roadmap_poses_ := [];
     goals_ := [];
     goal_states_ := [];
     start_state_ := None |}.

(** ** configure (lines 157-199)

    [error_code] is the out-parameter; the context is returned as the
    call leaves it. *)
Definition configure (ctx : RTRPlanningContext)
  : M (MoveItErrorCodes * RTRPlanningContext) :=
  let error_code := FAILURE in
  (* planning scene should be set *)
  match planning_scene_ ctx with
  | None => ret (error_code, ctx)
  | Some scene =>
    (* get joint model group *)
    let ctx := set_jmg_ ctx (getJointModelGroup (getCurrentState scene) (group_ ctx)) in
    jmg <- deref (jmg_ ctx) ;;
    let ctx := set_joint_model_names_ ctx (getActiveJointModelNames jmg) in
    (* check planner interface *)
    ready <- planner_isReady ;;
    not_initialized <-
      (if negb ready
       then (initialized <- planner_initialize ;; ret (negb initialized))
       else ret false) ;;
    if not_initialized then ret (error_code, ctx)
    else
      (* get roadmap configs *)
      '(loaded, configs) <-
        planner_getRoadmapConfigs (roadmap_ ctx) (roadmap_configs_ ctx) ;;
      let ctx := set_roadmap_configs_ ctx configs in
      if negb loaded || (length (roadmap_configs_ ctx) =? 0)%nat
      then ret (error_code, ctx)
      else
        (* check if joint dimension in roadmap fits to joint model group *)
        config0 <- deref (nth_error (roadmap_configs_ ctx) 0) ;;
        if negb (length config0 =? length (joint_model_names_ ctx))%nat
        then ret (error_code, ctx)
        else
          (* get roadmap poses *)
          '(loaded, poses) <-
            planner_getRoadmapTransforms (roadmap_ ctx) (roadmap_poses_ ctx) ;;
          let ctx := set_roadmap_poses_ ctx poses in
          if negb loaded || (length (roadmap_poses_ ctx) =? 0)%nat
          then ret (error_code, ctx)
          else ret (SUCCESS, set_configured_ ctx true)
  end.

(** ** initStartState (lines 281-314) *)

(** The inner loop [for (i = 0; i < num_joints; i++)] for one
    [joint_name]: [i] runs over the positions of the request, and
    [name[i]] is read whether or not the array of names is that long. *)
Fixpoint push_matching (joint_name : string) (names : list string)
    (positions : list double) (start_config : Config) : outcome Config :=
  match positions with
  | [] => Done start_config
  | p :: positions' =>
    match names with
    | [] => Undefined
    | n :: names' =>
      push_matching joint_name names' positions'
        (if String.eqb joint_name n
         then start_config ++ [float_of_double p]
         else start_config)
    end
  end.

(** The outer loop over [joint_model_names_]. *)
Fixpoint push_joints (joint_model_names : list string) (js : JointState)
    (start_config : Config) : outcome Config :=
  match joint_model_names with
  | [] => Done start_config
  | joint_name :: rest =>
    match push_matching joint_name (name js) (position js) start_config with
    | Done start_config' => push_joints rest js start_config'
    | Undefined => Undefined
    | OutOfFuel => OutOfFuel
    end
  end.

(** Returns the boolean, [start_config] as the call leaves it, and the
    context (whose [start_state_] is assigned). *)
Definition initStartState (ctx : RTRPlanningContext)
  : M (bool * Config * RTRPlanningContext) :=
  let start_config : Config := [] in
  scene <- deref (planning_scene_ ctx) ;;
  let current := getCurrentState scene in
  let ctx := set_start_state_ ctx (Some current) in
  let js := joint_state (start_state (request_ ctx)) in
  (* convert start state from MotionPlanRequest *)
  if negb (length (position js) =? 0)%nat
  then
    start_config <- lift (push_joints (joint_model_names_ ctx) js start_config) ;;
    if negb (length start_config =? length (joint_model_names_ ctx))%nat
    then ret (false, start_config, ctx)
    else
      (* write requested joint values to start state *)
      let ctx :=
        set_start_state_ ctx
          (Some (setVariablePositions (name js) (position js) current)) in
      ret (true, start_config, ctx)
  else
    (* take the current state of the planning scene *)
    let joint_positions := copyJointGroupPositions current (group_ ctx) in
    let start_config :=
      fold_left (fun c joint_position => c ++ [float_of_double joint_position])
        joint_positions start_config in
    ret (true, start_config, ctx).

(** ** getRapidPlanGoal (lines 225-279) *)

Definition allowed_joint_distance : double := M_PI.
Definition allowed_position_distance : double := 1 # 10.
Definition max_goal_states : nat := 1.

(** [std::transform(begin(joint_positions), end(joint_positions),
    begin(sample_config), float)]: overwrites the front of
    [sample_config]; writing past its end is undefined. *)
Fixpoint transform_float (joint_positions : list double) (sample_config : Config)
  : outcome Config :=
  match joint_positions with
  | [] => Done sample_config
  | d :: joint_positions' =>
    match sample_config with
    | [] => Undefined
    | _ :: sample_config' =>
      match transform_float joint_positions' sample_config' with
      | Done c => Done (float_of_double d :: c)
      | Undefined => Undefined
      | OutOfFuel => OutOfFuel
      end
    end
  end.

(** The [while (ros::Time::now() < terminate_plan_time_)] loop; [fuel]
    bounds the number of rounds.  The locals the loop changes are its
    arguments; it returns the boolean, [goal] and [goal_state]. *)
Fixpoint sample_goal (fuel : nat) (ctx : RTRPlanningContext)
    (scene : PlanningScene) (samplers : list ConstraintSampler)
    (robot_state sample_state : RobotState) (sample_config : Config)
    (distances : list float) (goal : RapidPlanGoal)
    (goal_state : option RobotState)
  : M (bool * RapidPlanGoal * option RobotState) :=
  match fuel with
  | O => out_of_fuel
  | S fuel' =>
    t <- Time_now ;;
    if (t <? terminate_plan_time_ ctx)%Z
    then
      '(sampled, sample_state) <-
        sample scene (group_ ctx) samplers sample_state robot_state 100 ;;
      if negb sampled
      then sample_goal fuel' ctx scene samplers robot_state sample_state
             sample_config distances goal goal_state
      else
        let joint_positions := copyJointGroupPositions sample_state (group_ ctx) in
        (* copy joint values to rtr::Config *)
        sample_config <- lift (transform_float joint_positions sample_config) ;;
        (* search for goal state candidates within allowed joint distance *)
        let '(ids, distances) :=
          findClosestConfigs sample_config (roadmap_configs_ ctx)
            (state_ids goal) distances max_goal_states allowed_joint_distance in
        let goal := {| type := type goal; state_ids := ids |} in
        if negb (length (state_ids goal) =? 0)%nat
        then ret (true, goal, Some sample_state)
        else sample_goal fuel' ctx scene samplers robot_state sample_state
               sample_config distances goal goal_state
    else ret (false, goal, goal_state)
  end.

Definition getRapidPlanGoal (fuel : nat) (ctx : RTRPlanningContext)
    (goal_constraint : Constraints) (goal : RapidPlanGoal)
    (goal_state : option RobotState)
  : M (bool * RapidPlanGoal * option RobotState) :=
  let goal := {| type := STATE_IDS; state_ids := state_ids goal |} in
  (* initialize constraint samplers *)
  let samplers : list ConstraintSampler := [] in
  let samplers :=
    if negb (length (joint_constraints goal_constraint) =? 0)%nat
    then samplers ++ [JointConstraintSampler goal_constraint]
    else samplers in
  let samplers :=
    if negb (length (position_constraints goal_constraint) =? 0)%nat
       || negb (length (orientation_constraints goal_constraint) =? 0)%nat
    then samplers ++ [IKConstraintSampler goal_constraint]
    else samplers in
  (* sample goal from roadmap states *)
  scene <- deref (planning_scene_ ctx) ;;
  let robot_state := getCurrentState scene in
  let sample_state := robot_state in
  jmg <- deref (jmg_ ctx) ;;
  let joint_positions : list double :=
    repeat 0 (length (getActiveJointModels jmg)) in
  let sample_config : Config := repeat 0 (length joint_positions) in
  let distances : list float := [] in
  sample_goal fuel ctx scene samplers robot_state sample_state sample_config
    distances goal goal_state.

(** ** initRapidPlanGoals (lines 201-223) *)

(** The loop over the goal constraints: [goals] is the vector the caller
    passed by reference, [goal_states_] the member. *)
Fixpoint extract_goals (fuel : nat) (ctx : RTRPlanningContext)
    (goal_constraints : list Constraints) (goals : list RapidPlanGoal)
  : M (list RapidPlanGoal * RTRPlanningContext) :=
  match goal_constraints with
  | [] => ret (goals, ctx)
  | goal_constraint :: rest =>
    let goal := {| type := STATE_IDS; state_ids := [] |} in
    let goal_state : option RobotState := None in
    '(found, goal, goal_state) <-
      getRapidPlanGoal fuel ctx goal_constraint goal goal_state ;;
    if found
    then extract_goals fuel
           (set_goal_states_ ctx (goal_states_ ctx ++ [goal_state]))
           rest (goals ++ [goal])
    else extract_goals fuel ctx rest goals
  end.

Definition initRapidPlanGoals (fuel : nat) (ctx : RTRPlanningContext)
    (goal_constraints : list Constraints) (goals : list RapidPlanGoal)
  : M (bool * list RapidPlanGoal * RTRPlanningContext) :=
  let success := false in
  '(goals, ctx) <- extract_goals fuel ctx goal_constraints goals ;;
  let success :=
    if (length goal_constraints =? 0)%nat
    then success   (* "Goal constraints are empty" *)
    else if (length goals =? 0)%nat
    then success   (* "Failed to extract any goals from constraints" *)
    else true in
  ret (success, goals, ctx).

(** ** solve (lines 78-140) *)

(** The loop [for (const RapidPlanGoal& goal : goals_)] of lines 110-136.
    [solution_path], [result] and [trajectory] are the locals and the
    out-parameter the loop changes. *)
Fixpoint plan_goals (ctx : RTRPlanningContext) (start_config : Config)
    (collision_voxels : list Voxel) (goals : list RapidPlanGoal)
    (solution_path : list Config) (result : MoveItErrorCodes)
    (trajectory : option RobotTrajectory)
  : M (MoveItErrorCodes * option RobotTrajectory) :=
  match goals with
  | [] => ret (result, trajectory)
  | goal :: rest =>
    (* check time *)
    t <- Time_now ;;
    let timeout := toSec (terminate_plan_time_ ctx - t)%Z * 1000 in
    if Qle_bool timeout 0
    then ret (TIMED_OUT, trajectory)
    else
      (* run plan *)
      '(solved, solution_path) <-
        planner_solve (roadmap_ ctx) start_config goal collision_voxels
          timeout solution_path ;;
      if solved
      then
        if (length solution_path =? 0)%nat
        then (* "Cannot convert empty path to robot trajectory" *)
          plan_goals ctx start_config collision_voxels rest solution_path
            result trajectory
        else
          (* convert solution path to robot trajectory *)
          scene <- deref (planning_scene_ ctx) ;;
          let reference_state := getCurrentState scene in
          let trajectory := RobotTrajectory_new reference_state (group_ ctx) in
          ret (SUCCESS,
               Some (pathRtrToRobotTrajectory solution_path reference_state
                       (joint_model_names_ ctx) trajectory))
      else
        plan_goals ctx start_config collision_voxels rest [] result trajectory
  end.

(** [trajectory] and [planning_time] are the two out-parameters: given as
    the caller holds them, returned as the call leaves them. *)
Definition solve (fuel : nat) (ctx : RTRPlanningContext)
    (trajectory : option RobotTrajectory) (planning_time : double)
  : M (MoveItErrorCodes * option RobotTrajectory * double * RTRPlanningContext) :=
  start_time <- Time_now ;;
  let ctx :=
    set_terminate_plan_time_ ctx
      (start_time + Duration_fromSec (allowed_planning_time (request_ ctx)))%Z in
  let result := FAILURE in
  if negb (configured_ ctx)
  then ret (result, trajectory, planning_time, ctx)
  else
    (* extract RapidPlanGoals *)
    '(extracted, goals, ctx) <-
      initRapidPlanGoals fuel ctx (goal_constraints (request_ ctx)) (goals_ ctx) ;;
    let ctx := set_goals_ ctx goals in
    if negb extracted
    then ret (result, trajectory, planning_time, ctx)
    else
      (* prepare collision scene; the helper reads the scene through the
         pointer it is given *)
      scene <- deref (planning_scene_ ctx) ;;
      let collision_voxels :=
        planningSceneToRtrCollisionVoxels scene (volume (roadmap_ ctx)) [] in
      (* initialize start state *)
      '(started, start_config, ctx) <- initStartState ctx ;;
      if negb started
      then ret (result, trajectory, planning_time, ctx)
      else
        (* Iterate goals and plan until we have a solution *)
        let solution_path : list Config := [] in
        let result := PLANNING_FAILED in
        '(result, trajectory) <-
          plan_goals ctx start_config collision_voxels (goals_ ctx)
            solution_path result trajectory ;;
        end_time <- Time_now ;;
        let planning_time := toSec (end_time - start_time)%Z in
        ret (result, trajectory, planning_time, ctx).

(** ** The two response shapes (lines 142-155) *)






(** ** clear and terminate (lines 316-325) *)

Definition clear (ctx : RTRPlanningContext) : RTRPlanningContext := ctx.

Definition terminate (ctx : RTRPlanningContext) : bool := false.

(** ** Reading the log of one run of the loop *)

(** One call [planner_interface_->solve(...)] of the loop: the candidate
    passed, the budget, and the engine's answer. *)
Record Attempt : Type := {
  a_goal : RapidPlanGoal;
  a_timeout : double;
  a_answer : bool;
  a_path : list Config
}.

Definition attempt_call (start_config : Config) (a : Attempt) : EngineCall :=
  Solve start_config (a_goal a) (a_timeout a) (a_answer a) (a_path a).

(** The engine reported success and the path is not empty. *)
Definition succeeded (a : Attempt) : bool :=
  a_answer a && negb (length (a_path a) =? 0)%nat.

(** The trajectory line 129-132 builds from a solution path. *)
Definition converted (ctx : RTRPlanningContext) (scene : PlanningScene)
    (solution_path : list Config) : RobotTrajectory :=
  pathRtrToRobotTrajectory solution_path (getCurrentState scene)
    (joint_model_names_ ctx)
    (RobotTrajectory_new (getCurrentState scene) (group_ ctx)).

(** The shapes a run of the loop over [goals] can take: the attempts it
    makes, in order, the result code and the trajectory it leaves. *)
Inductive plan_run (ctx : RTRPlanningContext) (scene : PlanningScene)
    (result : MoveItErrorCodes) (trajectory : option RobotTrajectory)
  : list RapidPlanGoal -> list Attempt -> MoveItErrorCodes ->
    option RobotTrajectory -> Prop :=
| run_exhausted :
    plan_run ctx scene result trajectory [] [] result trajectory
| run_timed_out goal rest :
    plan_run ctx scene result trajectory (goal :: rest) [] TIMED_OUT trajectory
| run_success goal rest a :
    a_goal a = goal ->
    succeeded a = true ->
    plan_run ctx scene result trajectory (goal :: rest) [a] SUCCESS
      (Some (converted ctx scene (a_path a)))
| run_continue goal rest a attempts code trajectory' :
    a_goal a = goal ->
    succeeded a = false ->
    plan_run ctx scene result trajectory rest attempts code trajectory' ->
    plan_run ctx scene result trajectory (goal :: rest) (a :: attempts) code
      trajectory'.

(** The deadline had already passed when [solve] read the clock. *)
Definition deadline_passed (ctx : RTRPlanningContext) : Prop :=
  allowed_planning_time (request_ ctx) <= 0.

(** Two readings of the clock in a row never go backwards. *)
Definition clock_monotone : Prop :=
  forall w : World,
    (fst (now w) <= fst (now (snd (now w))))%Z.

(** What a successful [configure] leaves behind and [solve] relies on
    when it dereferences [planning_scene_] and [jmg_]. *)
Definition scene_attached (ctx : RTRPlanningContext) : Prop :=
  configured_ ctx = true ->
  (exists scene, planning_scene_ ctx = Some scene) /\
  (exists jmg, jmg_ ctx = Some jmg).

(** ** Reading a start-state request *)

(** The values the request's joint state assigns to [joint_name], in the
    order of the message. *)
Definition assigned (js : JointState) (joint_name : string) : Config :=
  map (fun e => float_of_double (snd e))
    (filter (fun e => String.eqb joint_name (fst e))
       (combine (name js) (position js))).

(** The context with the joint state of its request replaced. *)
Definition with_joint_state (ctx : RTRPlanningContext) (js : JointState)
  : RTRPlanningContext :=
  setMotionPlanRequest ctx
    {| start_state := {| joint_state := js |};
       goal_constraints := goal_constraints (request_ ctx);
       allowed_planning_time := allowed_planning_time (request_ ctx) |}.

End PlanningContext.

(** ** findClosestConfigs *)

Section ClosestConfigs.

(** The joint-space metric; the spec leaves open whether it is the sum
    of the joint differences or their Euclidean norm. *)
Variable config_distance : Config -> Config -> float.

(** Roadmap states by growing distance; of two states equally far the
    one with the smaller ID stays first. *)
Fixpoint insert_by_distance (e : nat * float) (l : list (nat * float))
  : list (nat * float) :=
  match l with
  | [] => [e]
  | x :: l' =>
    if Qle_bool (snd x) (snd e)
    then x :: insert_by_distance e l'
    else e :: l
  end.

Definition sort_by_distance (l : list (nat * float)) : list (nat * float) :=
  fold_right insert_by_distance [] l.

(** Each roadmap state ID (its position in the set) with its distance
    to [config]. *)
Definition with_distances (config : Config) (configs : list Config)
  : list (nat * float) :=
  combine (seq 0 (length configs)) (map (config_distance config) configs).

(** Modelled from the spec: [findClosestConfigs] is defined in
    roadmap_util, which is not among the sources.  Section 4.4, step 2c:
    search the Roadmap Configuration Set for the nearest matches to the
    vector under a joint-space distance metric, subject to a maximum
    count of returned matches and a maximum admissible distance
    threshold.  The IDs and distances found replace what the two
    out-parameters held. *)
Definition findClosestConfigs_model (config : Config) (configs : list Config)
    (ids : list nat) (distances : list float) (max_count : nat)
    (max_distance : double) : list nat * list float :=
  let admissible :=
    filter (fun e => Qle_bool (snd e) max_distance)
      (with_distances config configs) in
  let closest := firstn max_count (sort_by_distance admissible) in
  (map fst closest, map snd closest).

End ClosestConfigs.

(** The sum of the absolute joint differences. *)
Definition l1_distance (a b : Config) : float :=
  fold_right Qplus 0 (map (fun p => Qabs (fst p - snd p)) (combine a b)).

(** ** A scripted environment

    A world whose clock, samplers and engine answer from lists written in
    advance; the concrete runs below are evaluated in it. *)
Module Scripted.

Record robot : Type := {
  joints : list string;
  values : list double
}.

Record script : Type := {
  time : Time;
  steps : list N;
  ready : bool;
  initializes : bool;
  configs : list (bool * list Config);
  poses : list (bool * list unit);
  samples : list (bool * list double);
  answers : list (bool * list Config)
}.

(** Pops the head of a script; its last entry stays. *)
Definition pop {A : Type} (default : A) (l : list A) : A * list A :=
  match l with
  | [] => (default, [])
  | [a] => (a, [a])
  | a :: l' => (a, l')
  end.

(** Reading the clock takes the time of the next step, so the clock never
    runs backwards; when the steps are used up it stands still. *)
Definition tick (w : script) : Time * script :=
  (time w,
   {| time := (time w + Z.of_N (hd 0%N (steps w)))%Z; steps := tl (steps w);
      ready := ready w; initializes := initializes w;
      configs := configs w; poses := poses w; samples := samples w;
      answers := answers w |}).

Definition draw (s : robot) (w : script) : (bool * robot) * script :=
  match samples w with
  | [] => ((false, s), w)
  | (ok, v) :: rest =>
    ((ok, {| joints := joints s; values := v |}),
     {| time := time w; steps := steps w; ready := ready w; initializes := initializes w;
        configs := configs w; poses := poses w; samples := rest;
        answers := answers w |})
  end.

Definition search (path : list Config) (w : script)
  : (bool * list Config) * script :=
  match answers w with
  | [] => ((false, path), w)
  | a :: rest =>
    (a,
     {| time := time w; steps := steps w; ready := ready w; initializes := initializes w;
        configs := configs w; poses := poses w; samples := samples w;
        answers := rest |})
  end.

Definition start_engine (w : script) : bool * script :=
  (initializes w,
   {| time := time w; steps := steps w; ready := initializes w; initializes := initializes w;
      configs := configs w; poses := poses w; samples := samples w;
      answers := answers w |}).

Definition load_configs (old : list Config) (w : script)
  : (bool * list Config) * script :=
  let (r, rest) := pop (false, old) (configs w) in
  (r, {| time := time w; steps := steps w; ready := ready w; initializes := initializes w;
         configs := rest; poses := poses w; samples := samples w;
         answers := answers w |}).

Definition load_poses (old : list unit) (w : script)
  : (bool * list unit) * script :=
  let (r, rest) := pop (false, old) (poses w) in
  (r, {| time := time w; steps := steps w; ready := ready w; initializes := initializes w;
         configs := configs w; poses := rest; samples := samples w;
         answers := answers w |}).

(** The robot has the one planning group "arm". *)
Definition group_of (s : robot) (group : string) : option JointModelGroup :=
  if String.eqb group "arm"
  then Some {| getActiveJointModels := map (fun n => {| getName := n |}) (joints s) |}
  else None.

#[local] Instance env : Env :=
  {| World := script;
     RobotState := robot;
     PlanningScene := robot;
     ToolPose := unit;
     Voxel := unit;
     RobotTrajectory := list Config;
     now := tick;
     getCurrentState := fun scene => scene;
     getJointModelGroup := group_of;
     copyJointGroupPositions := fun s _ => values s;
     setVariablePositions := fun _ _ s => s;
     union_sampler_sample := fun _ _ _ s _ _ => draw s;
     RobotTrajectory_new := fun _ _ => [];
     float_of_double := fun d => d;
     isReady := fun w => (ready w, w);
     initialize := start_engine;
     getRoadmapConfigs := fun _ => load_configs;
     getRoadmapTransforms := fun _ => load_poses;
     planner_interface_solve := fun _ _ _ _ _ => search;
     planningSceneToRtrCollisionVoxels := fun _ _ v => v;
     pathRtrToRobotTrajectory := fun path _ _ traj => traj ++ path;
     findClosestConfigs := findClosestConfigs_model l1_distance |}.

(** A two-joint arm at rest, and a roadmap of two states. *)
Definition arm : robot :=
  {| joints := ["shoulder"; "elbow"]%string; values := [0; 0] |}.

Definition two_states : list Config := [[0; 0]; [1; 1]].

Definition engine (t : list N) (s : list (bool * list double))
    (a : list (bool * list Config)) : script :=
  {| time := 0%Z; steps := t; ready := true; initializes := true;
     configs := [(true, two_states)]; poses := [(true, [tt; tt])];
     samples := s; answers := a |}.

Definition begin (w : script) : State (E := env) :=
  @Build_State env w [].

Definition spec : RoadmapSpecification :=
  {| roadmap_id := "roadmap";
     volume := {| base_frame := ""; center := (0, 0, 0); dimensions := (0, 0, 0) |} |}.

(** A freshly constructed context for the arm with the scene attached. *)
Definition fresh : RTRPlanningContext (E := env) :=
  setPlanningScene (RTRPlanningContext_new "arm" spec) (Some arm).

Definition joint_goal (j : string) (p : double) : Constraints :=
  {| joint_constraints :=
       [{| jc_joint_name := j; jc_position := p; jc_tolerance_above := 0;
           jc_tolerance_below := 0; jc_weight := 1 |}];
     position_constraints := [];
     orientation_constraints := [] |}.

Definition request (names : list string) (positions : list double)
    (goals : list Constraints) (seconds : double) : MotionPlanRequest :=
  {| start_state := {| joint_state := {| name := names; position := positions |} |};
     goal_constraints := goals;
     allowed_planning_time := seconds |}.

(** The value a finished call returned, and the log it left. *)
Definition returned {A : Type} (o : outcome (A * State (E := env))) : option A :=
  match o with
  | Done (a, _) => Some a
  | _ => None
  end.

Definition logged {A : Type} (o : outcome (A * State (E := env)))
  : list (EngineCall (E := env)) :=
  match o with
  | Done (_, st) => calls st
  | _ => []
  end.

(** The context after a successful [configure] on [fresh]. *)
Definition configured : RTRPlanningContext (E := env) :=
  match configure fresh (begin (engine [] [] [])) with
  | Done ((_, ctx), _) => ctx
  | _ => fresh
  end.

Definition final {A : Type} (o : outcome (A * State (E := env)))
  : State (E := env) :=
  match o with
  | Done (_, st) => st
  | _ => begin (engine [] [] [])
  end.

(** An engine whose roadmap has a second state of another dimension. *)
Definition ragged : script :=
  {| time := 0%Z; steps := []; ready := true; initializes := true;
     configs := [(true, [[0; 0]; [1]])]; poses := [(true, [tt; tt])];
     samples := []; answers := [] |}.


(** A request that names the shoulder twice and the elbow not at all. *)
Definition duplicated : MotionPlanRequest :=
  request ["shoulder"; "shoulder"]%string [1; 2] [joint_goal "elbow" 1] 1.

(** The same assignment of both joints, written in the two orders. *)
Definition shoulder_first : JointState :=
  {| name := ["shoulder"; "elbow"]%string; position := [1; 2] |}.

Definition elbow_first : JointState :=
  {| name := ["elbow"; "shoulder"]%string; position := [2; 1] |}.

(** Three goal constraints, each resolved by the sample drawn for it, and
    a request that leaves the start state to the scene. *)
Definition three_goals : MotionPlanRequest :=
  request [] []
    [joint_goal "elbow" 1; joint_goal "elbow" 0; joint_goal "elbow" 1] 1.

Definition three_samples : list (bool * list double) :=
  [(true, [1; 1]); (true, [0; 0]); (true, [1; 1])].

Definition ten : list N := repeat 10%N 8.

(** The engine fails on the first candidate and finds a path for the
    second. *)
Definition second_succeeds : script :=
  engine ten three_samples
    [(false, []); (true, [[0; 0]; [0; 0]]); (true, [[9; 9]])].


(** One goal constraint, and a deadline that is no later than the start. *)
Definition no_time : MotionPlanRequest :=
  request [] [] [joint_goal "elbow" 1] 0.

(** One goal constraint and one second to plan. *)
Definition one_goal : MotionPlanRequest :=
  request [] [] [joint_goal "elbow" 1] 1.

(** First call: the goal resolves to state 1 and the engine finds no
    path.  The context is kept for a second call. *)
Definition first_call : script :=
  engine ten [(true, [1; 1])] [(false, [])].

Definition after_first_call : RTRPlanningContext (E := env) :=
  match solve 5 (setMotionPlanRequest configured one_goal) None 0
          (begin first_call) with
  | Done ((_, _, _, ctx), _) => ctx
  | _ => configured
  end.

(** Second call, for a goal at state 0; the engine finds a path to
    whatever state it is asked first. *)
Definition other_goal : MotionPlanRequest :=
  request [] [] [joint_goal "elbow" 0] 1.

Definition second_call : script :=
  engine ten [(true, [0; 0])] [(true, [[0; 0]; [1; 1]])].

(** Second call whose only sample is far from every roadmap state, and
    whose clock then jumps past the deadline. *)
Definition far_goal : MotionPlanRequest :=
  request [] [] [joint_goal "elbow" 100] 1.

Definition unresolved_call : script :=
  engine [10; 2000000000; 10; 10]%N [(true, [100; 100])]
    [(true, [[0; 0]; [1; 1]])].

(** An engine whose roadmap has states of three joints. *)
Definition mismatched : script :=
  {| time := 0%Z; steps := []; ready := true; initializes := true;
     configs := [(true, [[1; 2; 3]])]; poses := [(true, [tt])];
     samples := []; answers := [] |}.

(** Two positions under a single name. *)
Definition short_names : JointState :=
  {| name := ["shoulder"]%string; position := [1; 2] |}.

(** The shoulder alone. *)
Definition shoulder_only : JointState :=
  {| name := ["shoulder"]%string; position := [1] |}.

(** A request without goal constraints. *)
Definition no_goals : MotionPlanRequest := request [] [] [] 1.

(** The configured context with its deadline 100 ns after time zero. *)
Definition planning : RTRPlanningContext (E := env) :=
  set_terminate_plan_time_ configured 100%Z.



(** The value a finished call returned, [d] when it did not finish. *)
Definition value {A : Type} (d : A) (o : outcome (A * State (E := env))) : A :=
  match o with
  | Done (a, _) => a
  | _ => d
  end.

(** A request that names the shoulder twice, beside a joint the group does
    not have, and the same three entries in another order. *)
Definition shoulder_twice : JointState :=
  {| name := ["shoulder"; "wrist"; "shoulder"]%string; position := [1; 9; 2] |}.

Definition shoulder_twice_reordered : JointState :=
  {| name := ["wrist"; "shoulder"; "shoulder"]%string; position := [9; 2; 1] |}.

End Scripted.

(** * Properties *)

(** ** Running a computation step by step *)

Section Stepping.

Context {E : Env}.

Lemma bind_Done (A B : Type) (m : M A) (k : A -> M B) st r :
  bind m k st = Done r ->
  exists a st1, m st = Done (a, st1) /\ k a st1 = Done r.
Proof.
  unfold bind. destruct (m st) as [[a st1]| |]; try discriminate.
  intros H. exists a, st1. split; [reflexivity | exact H].
Qed.

Lemma bind_step (A B : Type) (m : M A) (k : A -> M B) st a st1 :
  m st = Done (a, st1) -> bind m k st = k a st1.
Proof. unfold bind. intros ->. reflexivity. Qed.

Lemma deref_Done (A : Type) (p : option A) st a st1 :
  deref p st = Done (a, st1) -> p = Some a /\ st1 = st.
Proof.
  destruct p as [x|]; simpl; [|discriminate].
  unfold ret. intros H. inversion H. auto.
Qed.

Lemma Time_now_calls st t st1 :
  Time_now st = Done (t, st1) ->
  t = fst (now (world st)) /\ world st1 = snd (now (world st)) /\
  calls st1 = calls st.
Proof.
  unfold Time_now. destruct (now (world st)) as [t0 w].
  intros H. inversion H. simpl. auto.
Qed.

Lemma Time_now_total st :
  exists st1, Time_now st = Done (fst (now (world st)), st1) /\
              world st1 = snd (now (world st)) /\ calls st1 = calls st.
Proof.
  unfold Time_now. destruct (now (world st)) as [t0 w]. simpl.
  eexists. split; [reflexivity|]. simpl. auto.
Qed.

End Stepping.

(** ** configure *)

Section Configure.

Context {E : Env}.

(** The two ways [configure] returns: FAILURE with the flag untouched, or
    SUCCESS after every check of this run has passed. *)
Lemma configure_cases ctx st code ctx' st' :
  configure ctx st = Done ((code, ctx'), st') ->
  (code = FAILURE /\ configured_ ctx' = configured_ ctx) \/
  (code = SUCCESS /\
   exists scene jmg configs poses config0,
     planning_scene_ ctx = Some scene /\
     getJointModelGroup (getCurrentState scene) (group_ ctx) = Some jmg /\
     nth_error configs 0 = Some config0 /\
     length config0 = length (getActiveJointModelNames jmg) /\
     ctx' =
       set_configured_
         (set_roadmap_poses_
            (set_roadmap_configs_
               (set_joint_model_names_ (set_jmg_ ctx (Some jmg))
                  (getActiveJointModelNames jmg))
               configs)
            poses)
         true).
Proof.
  unfold configure. destruct (planning_scene_ ctx) as [scene|] eqn:Hs.
  2:{ unfold ret. intros H. inversion H. left. auto. }
  intros H.
  apply bind_Done in H. destruct H as (jmg & st1 & Hj & H).
  apply deref_Done in Hj. destruct Hj as [Hj ->]. simpl in Hj.
  apply bind_Done in H. destruct H as (rdy & st2 & _ & H).
  apply bind_Done in H. destruct H as (ni & st3 & _ & H).
  destruct ni.
  { unfold ret in H. inversion H. left. auto. }
  apply bind_Done in H. destruct H as ([loaded configs] & st4 & _ & H).
  cbn [roadmap_configs_ set_roadmap_configs_] in H.
  destruct (negb loaded || (length configs =? 0)%nat) eqn:Hc.
  { unfold ret in H. inversion H. left. auto. }
  apply bind_Done in H. destruct H as (config0 & st5 & H0 & H).
  apply deref_Done in H0. destruct H0 as [H0 ->].
  cbn [joint_model_names_ set_roadmap_configs_ set_joint_model_names_] in H.
  destruct (negb (length config0 =? length (getActiveJointModelNames jmg))%nat) eqn:Hd.
  { unfold ret in H. inversion H. left. auto. }
  apply bind_Done in H. destruct H as ([loaded' poses] & st6 & _ & H).
  cbn [roadmap_poses_ set_roadmap_poses_] in H.
  destruct (negb loaded' || (length poses =? 0)%nat) eqn:Hp.
  { unfold ret in H. inversion H. left. auto. }
  unfold ret in H. inversion H. right. split; [reflexivity|].
  exists scene, jmg, configs, poses, config0.
  apply negb_false_iff, Nat.eqb_eq in Hd.
  rewrite Hj. auto.
Qed.

(** With a scene attached and the group known to the robot model,
    [configure] returns, and the first thing it does is ask the engine
    whether it is ready; when it is, the configuration set is loaded
    again and replaces the one the context held. *)
Lemma configure_returns ctx st scene jmg :
  planning_scene_ ctx = Some scene ->
  getJointModelGroup (getCurrentState scene) (group_ ctx) = Some jmg ->
  exists code ctx' st' log,
    configure ctx st = Done ((code, ctx'), st') /\
    calls st' = calls st ++ IsReady (fst (isReady (world st))) :: log /\
    (fst (isReady (world st)) = true ->
     exists loaded configs log',
       log = GetRoadmapConfigs loaded configs :: log' /\
       roadmap_configs_ ctx' = configs).
Proof.
  intros Hs Hj. unfold configure. rewrite Hs.
  unfold bind at 1. cbn [jmg_ set_jmg_]. rewrite Hj. cbn [deref ret].
  unfold bind at 1. unfold planner_isReady.
  destruct (isReady (world st)) as [rdy w1]. cbn [fst].
  assert (Hload : forall st2 ctx2 log0,
    calls st2 = calls st ++ IsReady rdy :: log0 ->
    (rdy = true -> log0 = []) ->
    exists code ctx' st' log,
      bind (planner_getRoadmapConfigs (roadmap_ ctx2) (roadmap_configs_ ctx2))
        (fun x => let '(loaded, configs) := x in
           let ctx3 := set_roadmap_configs_ ctx2 configs in
           if negb loaded || (length (roadmap_configs_ ctx3) =? 0)%nat
           then ret (FAILURE, ctx3)
           else
             bind (deref (nth_error (roadmap_configs_ ctx3) 0))
               (fun config0 =>
                  if negb (length config0 =? length (joint_model_names_ ctx3))%nat
                  then ret (FAILURE, ctx3)
                  else
                    bind (planner_getRoadmapTransforms (roadmap_ ctx3)
                            (roadmap_poses_ ctx3))
                      (fun x0 => let '(loaded0, poses) := x0 in
                         let ctx4 := set_roadmap_poses_ ctx3 poses in
                         if negb loaded0 || (length (roadmap_poses_ ctx4) =? 0)%nat
                         then ret (FAILURE, ctx4)
                         else ret (SUCCESS, set_configured_ ctx4 true)))) st2
      = Done ((code, ctx'), st') /\
      calls st' = calls st ++ IsReady rdy :: log /\
      (rdy = true ->
       exists loaded configs log',
         log = GetRoadmapConfigs loaded configs :: log' /\
         roadmap_configs_ ctx' = configs)).
  { intros st2 ctx2 log0 Hc Hl0.
    unfold bind at 1. unfold planner_getRoadmapConfigs.
    destruct (getRoadmapConfigs (roadmap_ ctx2) (roadmap_configs_ ctx2) (world st2))
      as [[loaded configs] w2].
    cbn [fst snd roadmap_configs_ set_roadmap_configs_].
    destruct (negb loaded || (length configs =? 0)%nat) eqn:Hk.
    { do 4 eexists. split; [reflexivity|]. cbn [calls]. rewrite Hc.
      rewrite <- app_assoc. cbn [app]. split; [reflexivity|].
      intros Hr. rewrite (Hl0 Hr). do 3 eexists. split; reflexivity. }
    destruct configs as [|config0 configs'].
    { rewrite orb_true_r in Hk. discriminate. }
    unfold bind at 1. cbn [nth_error deref ret].
    destruct (negb (length config0 =? length (joint_model_names_
                (set_roadmap_configs_ ctx2 (config0 :: configs'))))%nat).
    { do 4 eexists. split; [reflexivity|]. cbn [calls]. rewrite Hc.
      rewrite <- app_assoc. cbn [app]. split; [reflexivity|].
      intros Hr. rewrite (Hl0 Hr). do 3 eexists. split; reflexivity. }
    unfold bind at 1. unfold planner_getRoadmapTransforms.
    match goal with
    | |- context [getRoadmapTransforms ?r ?p ?w] =>
      destruct (getRoadmapTransforms r p w) as [[loaded' poses] w3]
    end.
    cbn [fst snd roadmap_poses_ set_roadmap_poses_].
    destruct (negb loaded' || (length poses =? 0)%nat).
    - do 4 eexists. split; [reflexivity|]. cbn [calls]. rewrite Hc.
      repeat rewrite <- app_assoc. cbn [app]. split; [reflexivity|].
      intros Hr. rewrite (Hl0 Hr). do 3 eexists. split; reflexivity.
    - do 4 eexists. split; [reflexivity|]. cbn [calls]. rewrite Hc.
      repeat rewrite <- app_assoc. cbn [app]. split; [reflexivity|].
      intros Hr. rewrite (Hl0 Hr). do 3 eexists. split; reflexivity. }
  destruct rdy; cbn [negb].
  - unfold bind at 1. cbn [ret].
    apply (Hload _ _ []); [reflexivity | reflexivity].
  - unfold bind at 1. unfold bind at 1. unfold planner_initialize. cbn [world].
    destruct (initialize w1) as [ini w2]. destruct ini; cbn [negb ret].
    + match goal with
      | |- context [Initialize true] =>
        apply (Hload _ _ [Initialize true])
      end.
      * cbn [calls]. rewrite <- app_assoc. reflexivity.
      * discriminate.
    + do 4 eexists. split; [reflexivity|]. cbn [calls].
      rewrite <- app_assoc. cbn [app]. split; [reflexivity|]. discriminate.
Qed.

(** A successful [configure] leaves the scene, the group and the joint
    names in place, which is what [solve] relies on. *)
Lemma configure_attaches ctx st ctx' st' :
  configure ctx st = Done ((SUCCESS, ctx'), st') ->
  scene_attached ctx' /\
  exists scene jmg,
    planning_scene_ ctx' = Some scene /\
    jmg_ ctx' = getJointModelGroup (getCurrentState scene) (group_ ctx') /\
    jmg_ ctx' = Some jmg /\
    joint_model_names_ ctx' = getActiveJointModelNames jmg.
Proof.
  intros H. apply configure_cases in H. destruct H as [[H _]|[_ H]].
  { discriminate. }
  destruct H as (scene & jmg & configs & poses & config0 & Hs & Hj & _ & _ & ->).
  split.
  - intros _. split; [exists scene | exists jmg]; simpl; auto.
  - exists scene, jmg. simpl. rewrite Hj. auto.
Qed.

(** C6 (as amended).  After every successful configure the loaded
    Roadmap Configuration Set is not empty and its first vector has length
    equal to the planning group's active joint count; the check reads the
    first vector only, so every vector has that length when the engine
    returned vectors of one common length.  If the set the context holds
    after the call is empty, or its first vector's length differs from the
    joint count, configure has returned FAILURE and has not marked the
    context configured: a context not configured before is not configured
    after. *)
Theorem configure_checks_first_config ctx st code ctx' st' :
  configure ctx st = Done ((code, ctx'), st') ->
  (code = SUCCESS ->
   configured_ ctx' = true /\
   exists jmg config0 rest,
     jmg_ ctx' = Some jmg /\
     joint_model_names_ ctx' = getActiveJointModelNames jmg /\
     roadmap_configs_ ctx' = config0 :: rest /\
     length config0 = length (getActiveJointModels jmg) /\
     ((forall c, In c rest -> length c = length config0) ->
      Forall (fun c => length c = length (getActiveJointModels jmg))
        (roadmap_configs_ ctx'))) /\
  (roadmap_configs_ ctx' = [] \/
   (exists config0 rest,
      roadmap_configs_ ctx' = config0 :: rest /\
      length config0 <> length (joint_model_names_ ctx')) ->
   code = FAILURE /\ (configured_ ctx = false -> configured_ ctx' = false)).
Proof.
  intros H. apply configure_cases in H. destruct H as [[-> Hf]|[-> H]].
  - split; [discriminate|]. intros _. split; [reflexivity|]. congruence.
  - destruct H as (scene & jmg & configs & poses & config0 & Hs & Hj & H0 & Hl & ->).
    destruct configs as [|c rest]; [discriminate|]. simpl in H0.
    inversion H0; subst c. clear H0.
    unfold getActiveJointModelNames in Hl. rewrite length_map in Hl.
    split.
    + intros _. split; [reflexivity|].
      exists jmg, config0, rest. cbn.
      repeat split; auto.
      intros Hall. constructor; [exact Hl|].
      apply Forall_forall. intros c Hc. rewrite (Hall c Hc). exact Hl.
    + cbn. intros [Hn|(c & r & Hn & Hd)]; [discriminate|].
      inversion Hn; subst c r. exfalso. apply Hd.
      unfold getActiveJointModelNames. rewrite length_map. exact Hl.
Qed.


End Configure.

Lemma configure_checks_first_config_witness :
  configured_ Scripted.configured = true /\
  Forall (fun c => length c = 2%nat) (roadmap_configs_ Scripted.configured).
Proof.
  pose (st := Scripted.begin (Scripted.engine [] [] [])).
  assert (H : configure Scripted.fresh st =
              Done ((SUCCESS, Scripted.configured),
                    Scripted.final (configure Scripted.fresh st)))
    by (vm_compute; reflexivity).
  destruct (configure_checks_first_config _ _ H) as [Hs _].
  destruct (Hs eq_refl) as [Hc _].
  split; [exact Hc|].
  vm_compute. repeat constructor.
Defined.

(** C6, the claim as first stated, fails: an engine that returns a second
    vector of length one for a group of two joints passes the check, and
    configure reports SUCCESS. *)
Lemma configure_accepts_ragged_roadmap :
  match configure Scripted.fresh (Scripted.begin Scripted.ragged) with
  | Done ((code, ctx'), _) =>
    code = SUCCESS /\
    length (joint_model_names_ ctx') = 2%nat /\
    In [1] (roadmap_configs_ ctx') /\
    ~ Forall (fun c => length c = length (joint_model_names_ ctx'))
        (roadmap_configs_ ctx')
  | _ => False
  end.
Proof.
  vm_compute. split; [reflexivity|]. split; [reflexivity|].
  split; [right; left; reflexivity|].
  intros H. inversion H as [|? ? _ Htail]. inversion Htail as [|? ? Hlen _].
  discriminate Hlen.
Qed.



(** ** initStartState *)

Section StartState.

Context {E : Env}.

Lemma filter_Permutation (A : Type) (f : A -> bool) (l l' : list A) :
  Permutation l l' -> Permutation (filter f l) (filter f l').
Proof.
  induction 1 as [|x l l' _ IH|x y l|l l' l'' _ IH1 _ IH2]; simpl.
  - constructor.
  - destruct (f x); [constructor|]; exact IH.
  - destruct (f x), (f y); try apply Permutation_refl. apply perm_swap.
  - eapply Permutation_trans; eassumption.
Qed.

Lemma map_fst_combine (A B : Type) (l : list A) (l' : list B) :
  length l = length l' -> map fst (combine l l') = l.
Proof.
  revert l'. induction l as [|a l IH]; intros [|b l'] H; simpl in *;
    try discriminate; [reflexivity|].
  f_equal. apply IH. lia.
Qed.

(** Among entries with pairwise distinct names at most one carries a
    given name. *)
Lemma named_at_most_once (B : Type) (j : string) (l : list (string * B)) :
  NoDup (map fst l) ->
  (length (filter (fun e => String.eqb j (fst e)) l) <= 1)%nat.
Proof.
  induction l as [|[n b] l IH]; simpl; intros Hnd; [lia|].
  inversion Hnd as [|? ? Hnot Hnd']; subst.
  destruct (String.eqb j n) eqn:Hj; [|auto].
  apply String.eqb_eq in Hj. subst n. simpl.
  assert (Hnone : filter (fun e : string * B => String.eqb j (fst e)) l = []).
  { destruct (filter (fun e : string * B => String.eqb j (fst e)) l)
      as [|[n' b'] r] eqn:Hf; [reflexivity|].
    exfalso. apply Hnot.
    assert (Hin : In (n', b') (filter (fun e : string * B => String.eqb j (fst e)) l))
      by (rewrite Hf; left; reflexivity).
    apply filter_In in Hin. destruct Hin as [Hin Hn].
    apply String.eqb_eq in Hn. simpl in Hn. subst n'.
    apply in_map_iff. exists (j, b'). auto. }
  rewrite Hnone. simpl. lia.
Qed.

Lemma short_Permutation_eq (A : Type) (l l' : list A) :
  (length l <= 1)%nat -> Permutation l l' -> l = l'.
Proof.
  destruct l as [|a [|b l]]; simpl; intros Hl Hp.
  - symmetry. apply Permutation_nil. exact Hp.
  - symmetry. apply Permutation_length_1_inv. exact Hp.
  - lia.
Qed.

(** Reordering a request whose names are pairwise distinct does not
    change what it assigns to a joint. *)
Lemma assigned_Permutation (js1 js2 : JointState) (j : string) :
  length (name js1) = length (position js1) ->
  NoDup (name js1) ->
  Permutation (combine (name js1) (position js1))
              (combine (name js2) (position js2)) ->
  assigned js1 j = assigned js2 j.
Proof.
  intros Hl Hnd Hp. unfold assigned. f_equal.
  apply short_Permutation_eq.
  - apply named_at_most_once. rewrite map_fst_combine; assumption.
  - apply filter_Permutation. exact Hp.
Qed.

(** The inner loop pushes, behind what [start_config] holds, the values
    of the entries named [joint_name]. *)
Lemma push_matching_spec (j : string) (positions : list double) :
  forall (names : list string) (start_config : Config),
    (length positions <= length names)%nat ->
    push_matching j names positions start_config =
    Done (start_config ++
          map (fun e => float_of_double (snd e))
            (filter (fun e => String.eqb j (fst e)) (combine names positions))).
Proof.
  induction positions as [|p positions IH]; intros names start_config Hl.
  - simpl. destruct names; simpl; rewrite app_nil_r; reflexivity.
  - destruct names as [|n names]; simpl in Hl; [lia|].
    simpl. rewrite IH by lia.
    destruct (String.eqb j n); simpl; [|reflexivity].
    rewrite <- app_assoc. reflexivity.
Qed.

(** The two loops together: the group's joints in their order, each with
    the values the request assigns to it. *)
Lemma push_joints_spec (js : JointState) (joint_model_names : list string) :
  forall start_config : Config,
    (length (position js) <= length (name js))%nat ->
    push_joints joint_model_names js start_config =
    Done (start_config ++ flat_map (assigned js) joint_model_names).
Proof.
  induction joint_model_names as [|j rest IH]; intros start_config Hl; simpl.
  - rewrite app_nil_r. reflexivity.
  - rewrite push_matching_spec by exact Hl.
    rewrite IH by exact Hl. rewrite <- app_assoc. reflexivity.
Qed.

(** [initStartState] on a request that carries joint positions. *)
Lemma initStartState_explicit ctx st scene :
  planning_scene_ ctx = Some scene ->
  position (joint_state (start_state (request_ ctx))) <> [] ->
  (length (position (joint_state (start_state (request_ ctx)))) <=
   length (name (joint_state (start_state (request_ ctx)))))%nat ->
  exists ctx',
    initStartState ctx st =
    Done (((length (flat_map (assigned (joint_state (start_state (request_ ctx))))
                      (joint_model_names_ ctx))
            =? length (joint_model_names_ ctx))%nat,
           flat_map (assigned (joint_state (start_state (request_ ctx))))
             (joint_model_names_ ctx),
           ctx'), st) /\
    request_ ctx' = request_ ctx /\ goals_ ctx' = goals_ ctx /\
    planning_scene_ ctx' = planning_scene_ ctx /\
    joint_model_names_ ctx' = joint_model_names_ ctx /\
    group_ ctx' = group_ ctx /\ roadmap_ ctx' = roadmap_ ctx /\
    terminate_plan_time_ ctx' = terminate_plan_time_ ctx.
Proof.
  intros Hs Hp Hl. unfold initStartState. rewrite Hs.
  unfold bind at 1. cbn [deref ret].
  cbn [request_ set_start_state_ joint_model_names_ group_].
  destruct (position (joint_state (start_state (request_ ctx)))) as [|p ps] eqn:Hpos;
    [congruence|].
  cbn [length Nat.eqb negb]. rewrite <- Hpos.
  unfold bind at 1. rewrite push_joints_spec by (rewrite Hpos; exact Hl).
  cbn [lift app].
  destruct (length (flat_map (assigned (joint_state (start_state (request_ ctx))))
                      (joint_model_names_ ctx))
            =? length (joint_model_names_ ctx))%nat; cbn [negb ret];
    eexists; (split; [reflexivity|]); cbn; repeat split; auto.
Qed.

Lemma assigned_absent (js : JointState) (j : string) :
  ~ In j (name js) -> assigned js j = [].
Proof.
  intros Hn. unfold assigned.
  destruct (filter (fun e : string * double => String.eqb j (fst e))
              (combine (name js) (position js))) as [|[n p] r] eqn:Hf;
    [reflexivity|].
  exfalso. apply Hn.
  assert (Hin : In (n, p) (filter (fun e : string * double => String.eqb j (fst e))
                             (combine (name js) (position js))))
    by (rewrite Hf; left; reflexivity).
  apply filter_In in Hin. destruct Hin as [Hin Hj].
  apply String.eqb_eq in Hj. simpl in Hj. subst n.
  eapply in_combine_l. exact Hin.
Qed.

Lemma flat_map_short (A B : Type) (f : A -> list B) (l : list A) :
  (forall x, length (f x) <= 1)%nat ->
  (length (flat_map f l) <= length l)%nat.
Proof.
  intros Hf. induction l as [|a l IH]; simpl; [lia|].
  rewrite length_app. specialize (Hf a). lia.
Qed.

Lemma flat_map_shorter (A B : Type) (f : A -> list B) (l : list A) (x0 : A) :
  (forall x, length (f x) <= 1)%nat ->
  In x0 l -> f x0 = [] ->
  (length (flat_map f l) < length l)%nat.
Proof.
  intros Hf Hin H0. induction l as [|a l IH]; simpl in *; [contradiction|].
  rewrite length_app. destruct Hin as [->|Hin].
  - rewrite H0. simpl. pose proof (flat_map_short f l Hf). lia.
  - specialize (Hf a). specialize (IH Hin). lia.
Qed.

(** X17.  When the names of the request are pairwise distinct, an active
    joint the request does not name makes [initStartState] fail. *)
Lemma initStartState_rejects_missing_joint ctx st scene j :
  planning_scene_ ctx = Some scene ->
  position (joint_state (start_state (request_ ctx))) <> [] ->
  length (name (joint_state (start_state (request_ ctx)))) =
  length (position (joint_state (start_state (request_ ctx)))) ->
  NoDup (name (joint_state (start_state (request_ ctx)))) ->
  In j (joint_model_names_ ctx) ->
  ~ In j (name (joint_state (start_state (request_ ctx)))) ->
  exists start_config ctx',
    initStartState ctx st = Done ((false, start_config, ctx'), st).
Proof.
  intros Hs Hp Hl Hnd Hj Hn.
  destruct (initStartState_explicit ctx st Hs Hp) as (ctx' & Hrun & _); [lia|].
  assert (Hlt : (length (flat_map (assigned (joint_state (start_state (request_ ctx))))
                           (joint_model_names_ ctx))
                 < length (joint_model_names_ ctx))%nat).
  { apply flat_map_shorter with (x0 := j).
    - intros x. unfold assigned. rewrite length_map.
      apply named_at_most_once. rewrite map_fst_combine; assumption.
    - exact Hj.
    - apply assigned_absent. exact Hn. }
  apply Nat.lt_neq, Nat.eqb_neq in Hlt. rewrite Hlt in Hrun.
  eauto.
Qed.

(** C10.  When the request carries an explicit joint-state assignment
    whose joint names are pairwise distinct, with as many names as
    positions, the start configuration is assembled in the planning
    group's active joint order: it lists, joint by joint in the order of
    [joint_model_names_], the value the request assigns.  Two such
    requests that hold the same entries in different orders give the same
    start vector and the same verdict. *)
Theorem start_config_follows_group_order ctx st scene js1 js2 :
  planning_scene_ ctx = Some scene ->
  position js1 <> [] ->
  length (name js1) = length (position js1) ->
  length (name js2) = length (position js2) ->
  NoDup (name js1) ->
  Permutation (combine (name js1) (position js1))
              (combine (name js2) (position js2)) ->
  exists ok start_config ctx1 ctx2,
    initStartState (with_joint_state ctx js1) st
      = Done ((ok, start_config, ctx1), st) /\
    initStartState (with_joint_state ctx js2) st
      = Done ((ok, start_config, ctx2), st) /\
    start_config = flat_map (assigned js1) (joint_model_names_ ctx).
Proof.
  intros Hs Hp Hl1 Hl2 Hnd Hperm.
  assert (Hp2 : position js2 <> []).
  { intros H2. apply Permutation_length in Hperm.
    rewrite !length_combine, <- Hl1, <- Hl2, !Nat.min_id in Hperm.
    rewrite Hl2, H2 in Hperm. rewrite Hl1 in Hperm.
    destruct (position js1); [congruence | discriminate]. }
  destruct (@initStartState_explicit (with_joint_state ctx js1) st scene)
    as (ctx1 & Hrun1 & _); cbn; auto; [lia|].
  destruct (@initStartState_explicit (with_joint_state ctx js2) st scene)
    as (ctx2 & Hrun2 & _); cbn; auto; [lia|].
  cbn in Hrun1, Hrun2.
  assert (Heq : flat_map (assigned js2) (joint_model_names_ ctx) =
                flat_map (assigned js1) (joint_model_names_ ctx)).
  { apply flat_map_ext. intros j. symmetry.
    apply assigned_Permutation; assumption. }
  rewrite Heq in Hrun2.
  do 4 eexists. split; [exact Hrun1|]. split; [exact Hrun2|]. reflexivity.
Qed.

End StartState.

Lemma start_config_follows_group_order_witness :
  exists ok ctx1 ctx2,
    initStartState (with_joint_state Scripted.configured Scripted.shoulder_first)
      (Scripted.begin (Scripted.engine [] [] []))
      = Done ((ok, [1; 2], ctx1), Scripted.begin (Scripted.engine [] [] [])) /\
    initStartState (with_joint_state Scripted.configured Scripted.elbow_first)
      (Scripted.begin (Scripted.engine [] [] []))
      = Done ((ok, [1; 2], ctx2), Scripted.begin (Scripted.engine [] [] [])).
Proof.
  destruct (@start_config_follows_group_order Scripted.env Scripted.configured
              (Scripted.begin (Scripted.engine [] [] [])) Scripted.arm
              Scripted.shoulder_first Scripted.elbow_first)
    as (ok & start_config & ctx1 & ctx2 & H1 & H2 & Hs).
  - reflexivity.
  - discriminate.
  - reflexivity.
  - reflexivity.
  - repeat constructor; simpl; intuition discriminate.
  - simpl. apply perm_swap.
  - exists ok, ctx1, ctx2. subst start_config. split; [exact H1 | exact H2].
Defined.

(** C10, the claim as first stated, fails: when the request repeats a
    joint name, the order of the message decides the start vector.  The
    two requests hold the same three entries; both are accepted, the
    first with the start vector [1; 2], the second with [2; 1]. *)
Lemma start_config_depends_on_request_order :
  Permutation
    (combine (name Scripted.shoulder_twice) (position Scripted.shoulder_twice))
    (combine (name Scripted.shoulder_twice_reordered)
       (position Scripted.shoulder_twice_reordered)) /\
  match
    initStartState (with_joint_state Scripted.configured Scripted.shoulder_twice)
      (Scripted.begin (Scripted.engine [] [] [])),
    initStartState
      (with_joint_state Scripted.configured Scripted.shoulder_twice_reordered)
      (Scripted.begin (Scripted.engine [] [] []))
  with
  | Done ((ok1, start_config1, _), _), Done ((ok2, start_config2, _), _) =>
    ok1 = true /\ ok2 = true /\
    start_config1 = [1; 2] /\ start_config2 = [2; 1] /\
    start_config1 <> start_config2
  | _, _ => False
  end.
Proof.
  split.
  - cbn [Scripted.shoulder_twice Scripted.shoulder_twice_reordered name
         position combine].
    apply (Permutation_cons_append [("wrist"%string, 9); ("shoulder"%string, 2)]
             ("shoulder"%string, 1)).
  - vm_compute. repeat split. discriminate.
Qed.

(** ** The loop over the goal candidates *)

Section Attempts.

Context {E : Env}.





End Attempts.

(** ** The matcher of the spec *)

Section Matcher.

Variable config_distance : Config -> Config -> float.

Lemma In_firstn (A : Type) (n : nat) (x : A) :
  forall l, In x (firstn n l) -> In x l.
Proof.
  induction n as [|n IH]; intros [|a l]; simpl; try tauto.
  intros [H|H]; [left; exact H | right; apply IH; exact H].
Qed.

Lemma insert_by_distance_In e x l :
  In x (insert_by_distance e l) -> x = e \/ In x l.
Proof.
  induction l as [|y l IH]; simpl.
  - intros [H|[]]. left. symmetry. exact H.
  - destruct (Qle_bool (snd y) (snd e)); simpl.
    + intros [H|H]; [right; left; exact H|].
      destruct (IH H) as [H'|H']; auto.
    + intros [H|[H|H]]; auto.
Qed.

Lemma sort_by_distance_In x l :
  In x (sort_by_distance l) -> In x l.
Proof.
  induction l as [|e l IH]; simpl; [auto|].
  intros H. apply insert_by_distance_In in H.
  destruct H as [H|H]; [left; symmetry; exact H | right; apply IH; exact H].
Qed.

Lemma with_distances_In_from (config : Config) (configs : list Config) :
  forall k id d,
    In (id, d) (combine (seq k (length configs))
                  (map (config_distance config) configs)) ->
    exists c, nth_error configs (id - k) = Some c /\
              d = config_distance config c /\ (k <= id)%nat.
Proof.
  induction configs as [|c0 configs IH]; intros k id d; simpl; [intros []|].
  intros [H|H].
  - inversion H; subst. exists c0. rewrite Nat.sub_diag. simpl. auto.
  - destruct (IH (S k) id d H) as (c & Hn & Hd & Hk).
    exists c. replace (id - k)%nat with (S (id - S k)) by lia.
    simpl. repeat split; [exact Hn | exact Hd | lia].
Qed.

(** Every ID the matcher returns names a roadmap state no farther from
    [config] than [max_distance]. *)
Lemma findClosestConfigs_model_within config configs ids distances max_count
    max_distance id :
  In id (fst (findClosestConfigs_model config_distance config configs ids
                distances max_count max_distance)) ->
  exists c, nth_error configs id = Some c /\
            config_distance config c <= max_distance.
Proof.
  unfold findClosestConfigs_model. cbn [fst]. intros H.
  apply in_map_iff in H. destruct H as ([id' d] & Hid & H).
  simpl in Hid. subst id'.
  apply In_firstn, sort_by_distance_In, filter_In in H.
  destruct H as [H Hle]. unfold with_distances in H.
  apply with_distances_In_from in H. destruct H as (c & Hn & Hd & _).
  rewrite Nat.sub_0_r in Hn. exists c. split; [exact Hn|].
  simpl in Hle. apply Qle_bool_iff in Hle. rewrite <- Hd. exact Hle.
Qed.

(** It returns at most [max_count] IDs. *)
Lemma findClosestConfigs_model_count config configs ids distances max_count
    max_distance :
  (length (fst (findClosestConfigs_model config_distance config configs ids
                  distances max_count max_distance)) <= max_count)%nat.
Proof.
  unfold findClosestConfigs_model. cbn [fst]. rewrite length_map.
  apply firstn_le_length.
Qed.

End Matcher.

(** ** The goal resolver *)

Section Resolver.

Context {E : Env}.

(** What the sampling loop returns.  It makes no call to the engine.
    When it returns true the candidate holds the IDs [findClosestConfigs]
    gave for the last sample drawn, and they are not empty. *)
Lemma sample_goal_spec ctx scene samplers robot_state fuel :
  forall sample_state sample_config distances goal goal_state st found goal'
         goal_state' st',
    sample_goal fuel ctx scene samplers robot_state sample_state sample_config
      distances goal goal_state st = Done ((found, goal', goal_state'), st') ->
    calls st' = calls st /\
    type goal' = type goal /\
    (found = false -> goal_state' = goal_state) /\
    (found = true ->
     exists s prev_state w w' prev_config sample_config' prev_ids prev_distances
            distances',
       union_sampler_sample scene (group_ ctx) samplers prev_state robot_state
         100 w = ((true, s), w') /\
       goal_state' = Some s /\
       transform_float (copyJointGroupPositions s (group_ ctx)) prev_config
         = Done sample_config' /\
       findClosestConfigs sample_config' (roadmap_configs_ ctx) prev_ids
         prev_distances max_goal_states allowed_joint_distance
         = (state_ids goal', distances') /\
       state_ids goal' <> []).
Proof.
  induction fuel as [|fuel IH];
    intros sample_state sample_config distances goal goal_state st found goal'
           goal_state' st' H.
  { discriminate. }
  cbn [sample_goal] in H.
  apply bind_Done in H. destruct H as (t & st1 & Ht & H).
  apply Time_now_calls in Ht. destruct Ht as (_ & _ & Hc1).
  destruct (t <? terminate_plan_time_ ctx)%Z.
  2:{ unfold ret in H. inversion H; subst.
      repeat split; auto. discriminate. }
  apply bind_Done in H. destruct H as ([sampled s] & st2 & Hsample & H).
  unfold sample in Hsample.
  destruct (union_sampler_sample scene (group_ ctx) samplers sample_state
              robot_state 100 (world st1)) as [r w2] eqn:Hdraw.
  inversion Hsample; subst r st2. clear Hsample.
  destruct sampled; cbn [negb] in H.
  2:{ apply IH in H. cbn [calls] in H.
      destruct H as (Hc & Hty & Hf & Ht). rewrite Hc, Hc1. auto. }
  apply bind_Done in H. destruct H as (sc & st3 & Htr & H).
  unfold lift in Htr.
  destruct (transform_float (copyJointGroupPositions s (group_ ctx)) sample_config)
    as [sc'| |] eqn:Htf; try discriminate.
  inversion Htr; subst sc' st3. clear Htr.
  destruct (findClosestConfigs sc (roadmap_configs_ ctx) (state_ids goal)
              distances max_goal_states allowed_joint_distance)
    as [ids distances'] eqn:Hfind.
  cbn [state_ids type] in H.
  destruct (length ids =? 0)%nat eqn:Hlen; cbn [negb] in H.
  - apply IH in H. cbn [calls type] in H.
    destruct H as (Hc & Hty & Hf & Ht). rewrite Hc, Hc1. auto.
  - unfold ret in H. inversion H; subst. cbn [calls type state_ids].
    repeat split; auto; [discriminate|].
    intros _.
    exists s, sample_state, (world st1), w2, sample_config, sc,
           (state_ids goal), distances, distances'.
    repeat split; auto.
    intros Hnil. rewrite Hnil in Hlen. discriminate.
Qed.

Lemma getRapidPlanGoal_spec fuel ctx goal_constraint goal goal_state st found
    goal' goal_state' st' :
  getRapidPlanGoal fuel ctx goal_constraint goal goal_state st
    = Done ((found, goal', goal_state'), st') ->
  calls st' = calls st /\
  type goal' = STATE_IDS /\
  (found = false -> goal_state' = goal_state) /\
  (found = true ->
   exists scene samplers s prev_state w w' prev_config sample_config' prev_ids
          prev_distances distances',
     planning_scene_ ctx = Some scene /\
     union_sampler_sample scene (group_ ctx) samplers prev_state
       (getCurrentState scene) 100 w = ((true, s), w') /\
     goal_state' = Some s /\
     transform_float (copyJointGroupPositions s (group_ ctx)) prev_config
       = Done sample_config' /\
     findClosestConfigs sample_config' (roadmap_configs_ ctx) prev_ids
       prev_distances max_goal_states allowed_joint_distance
       = (state_ids goal', distances') /\
     state_ids goal' <> []).
Proof.
  unfold getRapidPlanGoal. intros H.
  apply bind_Done in H. destruct H as (scene & st1 & Hs & H).
  apply deref_Done in Hs. destruct Hs as [Hs ->].
  apply bind_Done in H. destruct H as (jmg & st2 & Hj & H).
  apply deref_Done in Hj. destruct Hj as [Hj ->].
  apply sample_goal_spec in H. cbn [type] in H.
  destruct H as (Hc & Hty & Hf & Ht).
  repeat split; auto.
  intros Hfound. destruct (Ht Hfound)
    as (s & ps & w & w' & pc & sc & pi & pd & d' & H1 & H2 & H3 & H4 & H5).
  exists scene. do 10 eexists. split; [exact Hs|].
  split; [exact H1|]. split; [exact H2|]. split; [exact H3|].
  split; [exact H4 | exact H5].
Qed.

(** [std::transform] over [joint_positions] into [sample_config]: the
    leading entries are overwritten with the converted joint values, the
    entries behind them stay, and so does the length. *)
Lemma transform_float_spec joint_positions :
  forall sample_config sample_config',
    transform_float joint_positions sample_config = Done sample_config' ->
    sample_config' =
      map float_of_double joint_positions
        ++ skipn (length joint_positions) sample_config /\
    length sample_config' = length sample_config.
Proof.
  induction joint_positions as [|d joint_positions IH];
    intros sample_config sample_config' H.
  - cbn [transform_float] in H. inversion H. auto.
  - cbn [transform_float] in H.
    destruct sample_config as [|x sample_config]; [discriminate|].
    destruct (transform_float joint_positions sample_config) as [c| |] eqn:Hc;
      try discriminate.
    inversion H; subst sample_config'. clear H.
    destruct (IH _ _ Hc) as [Heq Hlen].
    cbn [map length skipn app]. split; [f_equal; exact Heq | f_equal; exact Hlen].
Qed.

(** The configuration the loop hands to [findClosestConfigs] when it
    returns true: the joint values of the sample just drawn, converted,
    in a vector as long as the one the loop was entered with. *)
Lemma sample_goal_match ctx scene samplers robot_state n fuel :
  forall sample_state sample_config distances goal goal_state st goal'
         goal_state' st',
    length sample_config = n ->
    sample_goal fuel ctx scene samplers robot_state sample_state sample_config
      distances goal goal_state st = Done ((true, goal', goal_state'), st') ->
    exists s prev_state w w' rest prev_ids prev_distances distances',
      union_sampler_sample scene (group_ ctx) samplers prev_state robot_state
        100 w = ((true, s), w') /\
      goal_state' = Some s /\
      length (map float_of_double (copyJointGroupPositions s (group_ ctx))
                ++ rest) = n /\
      findClosestConfigs
        (map float_of_double (copyJointGroupPositions s (group_ ctx)) ++ rest)
        (roadmap_configs_ ctx) prev_ids prev_distances max_goal_states
        allowed_joint_distance
        = (state_ids goal', distances') /\
      state_ids goal' <> [].
Proof.
  induction fuel as [|fuel IH];
    intros sample_state sample_config distances goal goal_state st goal'
           goal_state' st' Hn H.
  { discriminate. }
  cbn [sample_goal] in H.
  apply bind_Done in H. destruct H as (t & st1 & _ & H).
  destruct (t <? terminate_plan_time_ ctx)%Z.
  2:{ unfold ret in H. inversion H. }
  apply bind_Done in H. destruct H as ([sampled s] & st2 & Hsample & H).
  unfold sample in Hsample.
  destruct (union_sampler_sample scene (group_ ctx) samplers sample_state
              robot_state 100 (world st1)) as [r w2] eqn:Hdraw.
  inversion Hsample; subst r st2. clear Hsample.
  destruct sampled; cbn [negb] in H.
  2:{ apply (IH _ _ _ _ _ _ _ _ _ Hn) in H. exact H. }
  apply bind_Done in H. destruct H as (sc & st3 & Htr & H).
  unfold lift in Htr.
  destruct (transform_float (copyJointGroupPositions s (group_ ctx)) sample_config)
    as [sc'| |] eqn:Htf; try discriminate.
  inversion Htr; subst sc' st3. clear Htr.
  apply transform_float_spec in Htf. destruct Htf as [Hsc Hlen].
  rewrite Hn in Hlen.
  destruct (findClosestConfigs sc (roadmap_configs_ ctx) (state_ids goal)
              distances max_goal_states allowed_joint_distance)
    as [ids distances'] eqn:Hfind.
  cbn [state_ids type] in H.
  destruct (length ids =? 0)%nat eqn:Hids; cbn [negb] in H.
  - apply (IH _ _ _ _ _ _ _ _ _ Hlen) in H. exact H.
  - unfold ret in H. inversion H; subst goal' goal_state' st'. clear H.
    cbn [state_ids].
    exists s, sample_state, (world st1), w2,
           (skipn (length (copyJointGroupPositions s (group_ ctx))) sample_config),
           (state_ids goal), distances, distances'.
    rewrite <- Hsc.
    repeat split; auto.
    intros Hnil. rewrite Hnil in Hids. discriminate.
Qed.

(** [getRapidPlanGoal] samples from the samplers it built for
    [goal_constraint], a joint sampler when there are joint constraints
    and an IK sampler when there are position or orientation constraints,
    and searches the roadmap for the sample's converted joint values, in a
    vector with one entry per active joint of the group. *)
Lemma getRapidPlanGoal_match fuel ctx goal_constraint goal goal_state st
    goal' goal_state' st' :
  getRapidPlanGoal fuel ctx goal_constraint goal goal_state st
    = Done ((true, goal', goal_state'), st') ->
  exists scene jmg s prev_state w w' rest prev_ids prev_distances distances',
    planning_scene_ ctx = Some scene /\
    jmg_ ctx = Some jmg /\
    union_sampler_sample scene (group_ ctx)
      (match joint_constraints goal_constraint with
       | [] => []
       | _ :: _ => [JointConstraintSampler goal_constraint]
       end ++
       match position_constraints goal_constraint,
             orientation_constraints goal_constraint with
       | [], [] => []
       | _, _ => [IKConstraintSampler goal_constraint]
       end)
      prev_state (getCurrentState scene) 100 w = ((true, s), w') /\
    goal_state' = Some s /\
    length (map float_of_double (copyJointGroupPositions s (group_ ctx))
              ++ rest) = length (getActiveJointModels jmg) /\
    findClosestConfigs
      (map float_of_double (copyJointGroupPositions s (group_ ctx)) ++ rest)
      (roadmap_configs_ ctx) prev_ids prev_distances max_goal_states
      allowed_joint_distance
      = (state_ids goal', distances') /\
    state_ids goal' <> [].
Proof.
  unfold getRapidPlanGoal. intros H.
  apply bind_Done in H. destruct H as (scene & st1 & Hs & H).
  apply deref_Done in Hs. destruct Hs as [Hs ->].
  apply bind_Done in H. destruct H as (jmg & st2 & Hj & H).
  apply deref_Done in Hj. destruct Hj as [Hj ->].
  apply (@sample_goal_match ctx scene _ _ (length (getActiveJointModels jmg)))
    in H.
  2:{ rewrite !repeat_length. reflexivity. }
  destruct H as (s & ps & w & w' & rest & pi & pd & d' & H1 & H2 & H3 & H4 & H5).
  exists scene, jmg, s, ps, w, w', rest, pi, pd, d'.
  split; [exact Hs|]. split; [exact Hj|].
  split; [|split; [exact H2|split; [exact H3|split; [exact H4|exact H5]]]].
  rewrite <- H1. f_equal.
  destruct (joint_constraints goal_constraint);
    destruct (position_constraints goal_constraint);
    destruct (orientation_constraints goal_constraint); reflexivity.
Qed.

(** C3.  For every goal constraint the Goal Resolver resolves, the
    emitted Goal Candidate holds exactly one matched roadmap state ID,
    hence at most one, and the matched roadmap configuration lies within
    the admissibility threshold, [M_PI], of the sampled configuration:
    the joint values, converted to [float], of the sample the union
    sampler drew last.  That sampler unites the samplers configured with
    the goal constraint itself: the joint sampler when the constraint has
    joint constraints, then the IK sampler when it has position or
    orientation constraints.  The sampled configuration has one entry per
    active joint of the group; [rest] is empty when the sample has that
    many joint values. *)
Theorem goal_candidate_within_threshold
    (config_distance : Config -> Config -> float)
    fuel ctx goal_constraint goal goal_state st goal' goal_state' st' :
  (forall config configs ids distances max_count max_distance,
     findClosestConfigs config configs ids distances max_count max_distance =
     findClosestConfigs_model config_distance config configs ids distances
       max_count max_distance) ->
  getRapidPlanGoal fuel ctx goal_constraint goal goal_state st
    = Done ((true, goal', goal_state'), st') ->
  (length (state_ids goal') <= 1)%nat /\
  state_ids goal' <> [] /\
  exists scene jmg s prev_state w w' rest,
    planning_scene_ ctx = Some scene /\
    jmg_ ctx = Some jmg /\
    union_sampler_sample scene (group_ ctx)
      (match joint_constraints goal_constraint with
       | [] => []
       | _ :: _ => [JointConstraintSampler goal_constraint]
       end ++
       match position_constraints goal_constraint,
             orientation_constraints goal_constraint with
       | [], [] => []
       | _, _ => [IKConstraintSampler goal_constraint]
       end)
      prev_state (getCurrentState scene) 100 w = ((true, s), w') /\
    goal_state' = Some s /\
    length (map float_of_double (copyJointGroupPositions s (group_ ctx))
              ++ rest) = length (getActiveJointModels jmg) /\
    forall id,
      In id (state_ids goal') ->
      exists config,
        nth_error (roadmap_configs_ ctx) id = Some config /\
        config_distance
          (map float_of_double (copyJointGroupPositions s (group_ ctx)) ++ rest)
          config <= M_PI.
Proof.
  intros Hmodel H. apply getRapidPlanGoal_match in H.
  destruct H
    as (scene & jmg & s & ps & w & w' & rest & pi & pd & d' &
        Hs & Hj & Hdraw & Hgs & Hlen & Hfind & Hne).
  rewrite Hmodel in Hfind.
  assert (Hids : state_ids goal' =
                 fst (findClosestConfigs_model config_distance
                        (map float_of_double
                           (copyJointGroupPositions s (group_ ctx)) ++ rest)
                        (roadmap_configs_ ctx) pi pd max_goal_states
                        allowed_joint_distance))
    by (rewrite Hfind; reflexivity).
  split; [|split; [exact Hne|]].
  - rewrite Hids. apply findClosestConfigs_model_count.
  - exists scene, jmg, s, ps, w, w', rest.
    repeat (split; [assumption|]).
    intros id Hin. rewrite Hids in Hin.
    apply findClosestConfigs_model_within in Hin. exact Hin.
Qed.

End Resolver.

(** ** solve *)

Section Solve.

Context {E : Env}.

Lemma initStartState_Done ctx st started start_config ctx' st' :
  initStartState ctx st = Done ((started, start_config, ctx'), st') ->
  st' = st /\
  exists scene s, planning_scene_ ctx = Some scene /\ ctx' = set_start_state_ ctx s.
Proof.
  unfold initStartState. intros H.
  apply bind_Done in H. destruct H as (scene & st1 & Hs & H).
  apply deref_Done in Hs. destruct Hs as [Hs ->].
  cbn [request_ set_start_state_ joint_model_names_ group_] in H.
  destruct (negb (length (position (joint_state (start_state (request_ ctx)))) =? 0)%nat).
  - apply bind_Done in H. destruct H as (sc & st2 & Hl & H).
    unfold lift in Hl.
    destruct (push_joints (joint_model_names_ ctx)
                (joint_state (start_state (request_ ctx))) []); try discriminate.
    inversion Hl; subst.
    destruct (negb (length sc =? length (joint_model_names_ ctx))%nat);
      unfold ret in H; inversion H; subst; (split; [reflexivity|]);
      exists scene; eexists; (split; [exact Hs|]); reflexivity.
  - unfold ret in H. inversion H; subst. split; [reflexivity|].
    exists scene. eexists. split; [exact Hs|]. reflexivity.
Qed.

(** The goals the resolver returns are the ones it was given followed by
    the ones it resolved; it makes no call to the engine. *)
Lemma extract_goals_spec fuel goal_constraints :
  forall ctx goals st goals' ctx' st',
    extract_goals fuel ctx goal_constraints goals st = Done ((goals', ctx'), st') ->
    calls st' = calls st /\
    (exists resolved, goals' = goals ++ resolved) /\
    (exists states, ctx' = set_goal_states_ ctx states \/ ctx' = ctx).
Proof.
  induction goal_constraints as [|c rest IH]; intros ctx goals st goals' ctx' st' H.
  - cbn [extract_goals] in H. unfold ret in H. inversion H; subst.
    split; [reflexivity|]. split; [exists []; rewrite app_nil_r; reflexivity|].
    exists []. right. reflexivity.
  - cbn [extract_goals] in H.
    apply bind_Done in H. destruct H as ([[found goal] gs] & st1 & Hg & H).
    apply getRapidPlanGoal_spec in Hg. destruct Hg as (Hc & _).
    destruct found.
    + apply IH in H. destruct H as (Hc' & (resolved & Hr) & (states & Hs)).
      split; [congruence|]. split.
      * exists (goal :: resolved). rewrite Hr, <- app_assoc. reflexivity.
      * destruct Hs as [Hs|Hs]; subst ctx'; eexists; left; reflexivity.
    + apply IH in H. destruct H as (Hc' & Hr & Hs).
      split; [congruence|]. auto.
Qed.

Lemma initRapidPlanGoals_spec fuel ctx goal_constraints goals st extracted
    goals' ctx' st' :
  initRapidPlanGoals fuel ctx goal_constraints goals st
    = Done ((extracted, goals', ctx'), st') ->
  calls st' = calls st /\
  (exists resolved, goals' = goals ++ resolved) /\
  (exists states, ctx' = set_goal_states_ ctx states \/ ctx' = ctx) /\
  (extracted = true -> goal_constraints <> [] /\ goals' <> []) /\
  (goal_constraints = [] -> extracted = false).
Proof.
  unfold initRapidPlanGoals. intros H.
  apply bind_Done in H. destruct H as ([goals1 ctx1] & st1 & Hx & H).
  apply extract_goals_spec in Hx. destruct Hx as (Hc & Hr & Hs).
  unfold ret in H. inversion H; subst. clear H.
  repeat split; auto.
  - destruct goal_constraints; [discriminate|]. discriminate.
  - destruct goal_constraints; [discriminate|]. cbn [length Nat.eqb] in H.
    destruct goals'; [discriminate|]. discriminate.
  - intros ->. reflexivity.
Qed.




(** *** After the deadline *)

Lemma Duration_fromSec_nonpos (d : double) :
  d <= 0 -> (Duration_fromSec d <= 0)%Z.
Proof.
  intros Hd. unfold Duration_fromSec.
  change 0%Z with (Qfloor (1 # 2)).
  apply Qfloor_resp_le. lra.
Qed.

(** Once the clock has reached [terminate_plan_time_] the sampling loop
    draws no sample: the resolver reads the clock once and gives up. *)
Lemma getRapidPlanGoal_after_deadline fuel ctx goal_constraint goal goal_state
    st scene jmg :
  planning_scene_ ctx = Some scene ->
  jmg_ ctx = Some jmg ->
  (terminate_plan_time_ ctx <= fst (now (world st)))%Z ->
  exists goal' st',
    getRapidPlanGoal (S fuel) ctx goal_constraint goal goal_state st
      = Done ((false, goal', goal_state), st') /\
    world st' = snd (now (world st)) /\
    calls st' = calls st.
Proof.
  intros Hs Hj Hlate. unfold getRapidPlanGoal. rewrite Hs, Hj.
  unfold bind at 1. cbn [deref ret]. unfold bind at 1. cbn [deref ret].
  cbn [sample_goal]. unfold bind at 1. unfold Time_now.
  destruct (now (world st)) as [t w] eqn:Hnow. cbn [fst snd] in *.
  apply Z.ltb_ge in Hlate. rewrite Hlate.
  do 2 eexists. split; [reflexivity|]. cbn. auto.
Qed.

Lemma extract_goals_after_deadline fuel ctx scene jmg :
  clock_monotone ->
  planning_scene_ ctx = Some scene ->
  jmg_ ctx = Some jmg ->
  forall constraints goals st,
    (terminate_plan_time_ ctx <= fst (now (world st)))%Z ->
    exists st',
      extract_goals (S fuel) ctx constraints goals st
        = Done ((goals, ctx), st') /\
      calls st' = calls st.
Proof.
  intros Hmono Hs Hj constraints. induction constraints as [|c rest IH];
    intros goals st Hlate.
  - exists st. split; reflexivity.
  - cbn [extract_goals].
    destruct (getRapidPlanGoal_after_deadline fuel ctx c
                {| type := STATE_IDS; state_ids := [] |} None st Hs Hj Hlate)
      as (goal' & st1 & Hrun & Hw & Hc).
    rewrite (bind_step _ _ _ Hrun).
    destruct (IH goals st1) as (st' & Hrest & Hc').
    { rewrite Hw. etransitivity; [exact Hlate | apply Hmono]. }
    exists st'. split; [exact Hrest | congruence].
Qed.

(** C4 (as amended).  For every solve call entered when the planning
    deadline has already passed (allowed planning time zero or negative),
    with a clock that does not run backwards and on a context that holds
    no goal candidate from an earlier call, the result code is FAILURE
    and not TIMED_OUT: the goal resolver finds the deadline passed before
    it draws a sample, no candidate is resolved, and solve returns before
    the attempt loop.  No goal candidate is passed to the external search
    engine, and the two outputs, trajectory and elapsed time, are left as
    the caller passed them. *)
Theorem solve_after_deadline fuel ctx trajectory planning_time st :
  clock_monotone ->
  deadline_passed ctx ->
  scene_attached ctx ->
  goals_ ctx = [] ->
  exists ctx' st',
    solve (S fuel) ctx trajectory planning_time st
      = Done ((FAILURE, trajectory, planning_time, ctx'), st') /\
    calls st' = calls st /\
    goals_ ctx' = [].
Proof.
  intros Hmono Hdead Hatt Hgoals.
  destruct (Time_now_total st) as (st0 & Hnow & Hw0 & Hc0).
  unfold solve. rewrite (bind_step _ _ _ Hnow).
  cbn [configured_ request_ goals_ set_terminate_plan_time_].
  destruct (configured_ ctx) eqn:Hconf; cbn [negb].
  2:{ do 2 eexists. split; [reflexivity|]. split; [exact Hc0 | exact Hgoals]. }
  destruct (Hatt Hconf) as [[scene Hs] [jmg Hj]].
  set (ctx0 := set_terminate_plan_time_ ctx
                 (fst (now (world st)) +
                  Duration_fromSec (allowed_planning_time (request_ ctx)))%Z).
  destruct (@extract_goals_after_deadline fuel ctx0 scene jmg Hmono Hs Hj
              (goal_constraints (request_ ctx)) (goals_ ctx) st0)
    as (st1 & Hx & Hc1).
  { subst ctx0. cbn [terminate_plan_time_ set_terminate_plan_time_].
    rewrite Hw0. pose proof (Duration_fromSec_nonpos Hdead).
    pose proof (Hmono (world st)). lia. }
  unfold initRapidPlanGoals. unfold bind at 1. unfold bind at 1.
  rewrite Hx. rewrite Hgoals. cbn [ret length Nat.eqb].
  destruct (length (goal_constraints (request_ ctx)) =? 0)%nat; cbn [negb];
    (do 2 eexists; split; [reflexivity|]; split; [congruence | reflexivity]).
Qed.

(** *** Part of C9 that holds on every context *)

(** X18.  An empty list of goal constraints makes [solve] return FAILURE
    without a call to the engine, whatever the context holds, and with
    the two outputs left as they were. *)
Lemma solve_empty_goal_constraints fuel ctx trajectory planning_time st :
  goal_constraints (request_ ctx) = [] ->
  exists ctx' st',
    solve fuel ctx trajectory planning_time st
      = Done ((FAILURE, trajectory, planning_time, ctx'), st') /\
    calls st' = calls st.
Proof.
  intros Hempty.
  destruct (Time_now_total st) as (st0 & Hnow & _ & Hc0).
  unfold solve. rewrite (bind_step _ _ _ Hnow).
  cbn [configured_ request_ goals_ set_terminate_plan_time_].
  destruct (configured_ ctx); cbn [negb].
  2:{ do 2 eexists. split; [reflexivity | exact Hc0]. }
  rewrite Hempty. unfold initRapidPlanGoals. unfold bind at 1. unfold bind at 1.
  cbn [extract_goals ret length Nat.eqb negb].
  do 2 eexists. split; [reflexivity | exact Hc0].
Qed.

(** X19.  When the resolver returns and the context ends up with no
    candidate at all, [solve] returns FAILURE without a call to the
    engine. *)
Lemma solve_without_candidates fuel ctx trajectory planning_time st start_time
    st0 extracted ctx1 st1 :
  configured_ ctx = true ->
  Time_now st = Done (start_time, st0) ->
  initRapidPlanGoals fuel
    (set_terminate_plan_time_ ctx
       (start_time + Duration_fromSec (allowed_planning_time (request_ ctx)))%Z)
    (goal_constraints (request_ ctx)) (goals_ ctx) st0
    = Done ((extracted, [], ctx1), st1) ->
  solve fuel ctx trajectory planning_time st
    = Done ((FAILURE, trajectory, planning_time, set_goals_ ctx1 []), st1) /\
  calls st1 = calls st.
Proof.
  intros Hconf Hnow Hinit.
  assert (Hex : extracted = false).
  { pose proof (initRapidPlanGoals_spec _ _ _ _ _ Hinit) as (_ & _ & _ & Hne & _).
    destruct extracted; [|reflexivity].
    destruct (Hne eq_refl) as [_ Hn]. congruence. }
  subst extracted. split.
  - unfold solve. rewrite (bind_step _ _ _ Hnow).
    cbn [configured_ request_ goals_ set_terminate_plan_time_].
    rewrite Hconf. cbn [negb]. rewrite (bind_step _ _ _ Hinit). reflexivity.
  - apply initRapidPlanGoals_spec in Hinit. destruct Hinit as (Hc1 & _).
    apply Time_now_calls in Hnow. destruct Hnow as (_ & _ & Hc0). congruence.
Qed.

(** X20.  The candidate list only grows: a solve call keeps every
    candidate the context held when it was entered, in front of the ones
    it resolves. *)
Lemma solve_keeps_old_goals fuel ctx trajectory planning_time st code
    trajectory' planning_time' ctx' st' :
  solve fuel ctx trajectory planning_time st
    = Done ((code, trajectory', planning_time', ctx'), st') ->
  exists resolved, goals_ ctx' = goals_ ctx ++ resolved.
Proof.
  unfold solve. intros H.
  apply bind_Done in H. destruct H as (t & st0 & _ & H).
  cbn [configured_ request_ goals_ set_terminate_plan_time_] in H.
  destruct (negb (configured_ ctx)).
  { unfold ret in H. inversion H; subst. exists []. cbn.
    rewrite app_nil_r. reflexivity. }
  apply bind_Done in H. destruct H as ([[extracted goals] ctx1] & st1 & Hinit & H).
  apply initRapidPlanGoals_spec in Hinit. destruct Hinit as (_ & Hr & _).
  destruct (negb extracted).
  { unfold ret in H. inversion H; subst. exact Hr. }
  apply bind_Done in H. destruct H as (scene & st2 & _ & H).
  apply bind_Done in H. destruct H as ([[started sc] ctx2] & st3 & Hstart & H).
  apply initStartState_Done in Hstart.
  destruct Hstart as (_ & scene' & s & _ & Hctx2).
  destruct (negb started).
  { unfold ret in H. inversion H; subst. exact Hr. }
  apply bind_Done in H. destruct H as ([code' tr'] & st4 & _ & H).
  apply bind_Done in H. destruct H as (t' & st5 & _ & H).
  unfold ret in H. inversion H; subst. exact Hr.
Qed.

End Solve.

(** ** The theorems at work in the scripted world *)



Lemma goal_candidate_within_threshold_witness :
  exists goal' goal_state' st',
    getRapidPlanGoal 5 (set_terminate_plan_time_ Scripted.configured 100%Z)
      (Scripted.joint_goal "elbow" 1) {| type := STATE_IDS; state_ids := [] |}
      None (Scripted.begin Scripted.first_call)
      = Done ((true, goal', goal_state'), st') /\
    (length (state_ids goal') <= 1)%nat /\
    state_ids goal' <> [] /\
    exists scene s prev_state w w' rest,
      @union_sampler_sample Scripted.env scene "arm"
        [JointConstraintSampler (Scripted.joint_goal "elbow" 1)]
        prev_state (@getCurrentState Scripted.env scene) 100 w
        = ((true, s), w') /\
      goal_state' = Some s /\
      length (Scripted.values s ++ rest) = 2%nat /\
      forall id,
        In id (state_ids goal') ->
        exists config,
          nth_error Scripted.two_states id = Some config /\
          l1_distance (Scripted.values s ++ rest) config <= M_PI.
Proof.
  edestruct (@goal_candidate_within_threshold Scripted.env l1_distance 5
               (set_terminate_plan_time_ Scripted.configured 100%Z)
               (Scripted.joint_goal "elbow" 1)
               {| type := STATE_IDS; state_ids := [] |} None
               (Scripted.begin Scripted.first_call))
    as (Hcount & Hne & scene & jmg & s & ps & w & w' & rest &
        _ & Hj & Hdraw & Hgs & Hlen & Hin).
  - intros. reflexivity.
  - vm_compute. reflexivity.
  - do 3 eexists. split; [vm_compute; reflexivity|].
    split; [exact Hcount|]. split; [exact Hne|].
    exists scene, s, ps, w, w', rest.
    split; [exact Hdraw|]. split; [exact Hgs|].
    assert (Hn : length (getActiveJointModels jmg) = 2%nat).
    { vm_compute in Hj. injection Hj as <-. reflexivity. }
    split.
    + rewrite <- Hn. rewrite <- Hlen. cbn [float_of_double copyJointGroupPositions Scripted.env].
      rewrite map_id. reflexivity.
    + intros id Hid. destruct (Hin id Hid) as (config & Hc & Hd).
      exists config. split; [exact Hc|].
      cbn [float_of_double copyJointGroupPositions Scripted.env] in Hd.
      rewrite map_id in Hd. exact Hd.
Defined.

Lemma solve_after_deadline_witness :
  exists ctx' st',
    solve 5 (setMotionPlanRequest Scripted.configured Scripted.no_time)
      None 7 (Scripted.begin Scripted.first_call)
      = Done ((FAILURE, None, 7, ctx'), st') /\
    calls st' = [].
Proof.
  destruct (@solve_after_deadline Scripted.env 4
              (setMotionPlanRequest Scripted.configured Scripted.no_time)
              None 7 (Scripted.begin Scripted.first_call))
    as (ctx' & st' & Hrun & Hcalls & _).
  - intros w. destruct w. simpl. lia.
  - vm_compute. discriminate.
  - intros _. split; eexists; reflexivity.
  - reflexivity.
  - exists ctx', st'. split; [exact Hrun | exact Hcalls].
Defined.

(** C4, the claim as first stated, fails: with an allowed planning time
    of zero a configured context with one goal constraint returns
    FAILURE, not TIMED_OUT. *)
Lemma solve_after_deadline_is_not_timed_out :
  allowed_planning_time Scripted.no_time <= 0 /\
  match solve 5 (setMotionPlanRequest Scripted.configured Scripted.no_time)
          None 7 (Scripted.begin Scripted.first_call) with
  | Done ((code, _, planning_time, _), st') =>
    code = FAILURE /\ code <> TIMED_OUT /\ planning_time = 7 /\ calls st' = []
  | _ => False
  end.
Proof.
  split; [vm_compute; discriminate|].
  vm_compute. repeat split; try reflexivity. discriminate.
Qed.

(** C5, the code at the failing input.  The first call resolved its goal
    to roadmap state 1 and found no path.  The second call, on the same
    context, is for a goal that resolves to state 0; the candidate passed
    to the engine first is the one of the first call, and its path is
    returned with SUCCESS. *)
Lemma second_solve_tries_stale_goal :
  goals_ Scripted.after_first_call = [{| type := STATE_IDS; state_ids := [1%nat] |}] /\
  match solve 5 (setMotionPlanRequest Scripted.after_first_call Scripted.other_goal)
          None 0 (Scripted.begin Scripted.second_call) with
  | Done ((code, trajectory, _, ctx'), st') =>
    code = SUCCESS /\
    goals_ ctx' =
      [{| type := STATE_IDS; state_ids := [1%nat] |};
       {| type := STATE_IDS; state_ids := [0%nat] |}] /\
    exists timeout,
      calls st' =
        [@Solve Scripted.env [0; 0] {| type := STATE_IDS; state_ids := [1%nat] |}
           timeout true [[0; 0]; [1; 1]]]
  | _ => False
  end.
Proof.
  vm_compute. repeat split. eexists. reflexivity.
Qed.

(** C8, the code at the failing input.  The request names the shoulder
    twice and the elbow, an active joint of the group, not at all; the
    start vector still has two entries, [initStartState] accepts it, and
    the engine is invoked with it. *)
Lemma duplicate_name_hides_missing_joint :
  In "elbow"%string (joint_model_names_ Scripted.configured) /\
  ~ In "elbow"%string (name (joint_state (start_state Scripted.duplicated))) /\
  match solve 5 (setMotionPlanRequest Scripted.configured Scripted.duplicated)
          None 0 (Scripted.begin Scripted.second_call) with
  | Done ((code, _, _, _), st') =>
    code = SUCCESS /\
    exists goal timeout path,
      calls st' = [@Solve Scripted.env [1; 2] goal timeout true path]
  | _ => False
  end.
Proof.
  split; [right; left; reflexivity|]. split.
  - simpl. intros [H|[H|[]]]; discriminate H.
  - vm_compute. split; [reflexivity|]. do 3 eexists. reflexivity.
Qed.

(** C9, the code at the failing input.  The context holds the candidate
    of an earlier call; the one goal constraint of this call does not
    resolve before the deadline.  The result is TIMED_OUT, where on a
    context without the old candidate the same call returns FAILURE. *)
Lemma stale_goal_hides_unresolved_constraint :
  match solve 5 (setMotionPlanRequest Scripted.after_first_call Scripted.far_goal)
          None 0 (Scripted.begin Scripted.unresolved_call) with
  | Done ((code, _, _, ctx'), st') =>
    code = TIMED_OUT /\ code <> FAILURE /\
    goals_ ctx' = goals_ Scripted.after_first_call /\
    calls st' = []
  | _ => False
  end /\
  match solve 5 (setMotionPlanRequest Scripted.configured Scripted.far_goal)
          None 0 (Scripted.begin Scripted.unresolved_call) with
  | Done ((code, _, _, ctx'), st') =>
    code = FAILURE /\ goals_ ctx' = [] /\ calls st' = []
  | _ => False
  end.
Proof.
  vm_compute. repeat split. discriminate.
Qed.

(** * Further properties of the member functions *)

(** ** configure: the order of the engine calls *)

Section ConfigureProtocol.

Context {E : Env}.

Lemma planner_isReady_Done st r st1 :
  planner_isReady st = Done (r, st1) -> calls st1 = calls st ++ [IsReady r].
Proof.
  unfold planner_isReady. destruct (isReady (world st)) as [r0 w].
  intros H. inversion H. reflexivity.
Qed.

Lemma planner_initialize_Done st r st1 :
  planner_initialize st = Done (r, st1) ->
  calls st1 = calls st ++ [Initialize r].
Proof.
  unfold planner_initialize. destruct (initialize (world st)) as [r0 w].
  intros H. inversion H. reflexivity.
Qed.

Lemma planner_getRoadmapConfigs_Done roadmap old st loaded configs st1 :
  planner_getRoadmapConfigs roadmap old st = Done ((loaded, configs), st1) ->
  calls st1 = calls st ++ [GetRoadmapConfigs loaded configs].
Proof.
  unfold planner_getRoadmapConfigs.
  destruct (getRoadmapConfigs roadmap old (world st)) as [[l c] w].
  intros H. inversion H. reflexivity.
Qed.

Lemma planner_getRoadmapTransforms_Done roadmap old st loaded poses st1 :
  planner_getRoadmapTransforms roadmap old st = Done ((loaded, poses), st1) ->
  calls st1 = calls st ++ [GetRoadmapTransforms loaded poses].
Proof.
  unfold planner_getRoadmapTransforms.
  destruct (getRoadmapTransforms roadmap old (world st)) as [[l c] w].
  intros H. inversion H. reflexivity.
Qed.

(** The log of one run of [configure], with what the run leaves in the
    context.  [opening] is how the engine came to be ready. *)
Lemma configure_log ctx st code ctx' st' :
  configure ctx st = Done ((code, ctx'), st') ->
  exists log,
    calls st' = calls st ++ log /\
    ((log = [] /\ code = FAILURE /\ ctx' = ctx) \/
     (log = [IsReady false; Initialize false] /\ code = FAILURE /\
      roadmap_configs_ ctx' = roadmap_configs_ ctx /\
      roadmap_poses_ ctx' = roadmap_poses_ ctx) \/
     (exists opening,
        (opening = [IsReady true] \/ opening = [IsReady false; Initialize true]) /\
        ((exists loaded configs,
            log = opening ++ [GetRoadmapConfigs loaded configs] /\
            code = FAILURE /\
            roadmap_configs_ ctx' = configs /\
            roadmap_poses_ ctx' = roadmap_poses_ ctx) \/
         (exists configs loaded poses,
            log = opening ++ [GetRoadmapConfigs true configs;
                              GetRoadmapTransforms loaded poses] /\
            configs <> [] /\
            roadmap_configs_ ctx' = configs /\
            roadmap_poses_ ctx' = poses /\
            (code = SUCCESS <-> loaded = true /\ poses <> []) /\
            (code = SUCCESS -> configured_ ctx' = true))))).
Proof.
  unfold configure. destruct (planning_scene_ ctx) as [scene|] eqn:Hs.
  2:{ unfold ret. intros H. inversion H; subst. exists [].
      rewrite app_nil_r. split; [reflexivity|]. left. auto. }
  intros H.
  apply bind_Done in H. destruct H as (jmg & st1 & Hj & H).
  apply deref_Done in Hj. destruct Hj as [Hj ->].
  apply bind_Done in H. destruct H as (rdy & st2 & Hr & H).
  apply planner_isReady_Done in Hr.
  apply bind_Done in H. destruct H as (ni & st3 & Hi & H).
  assert (Hopen : exists opening,
            calls st3 = calls st ++ opening /\
            ((ni = true /\ opening = [IsReady false; Initialize false]) \/
             (ni = false /\ (opening = [IsReady true] \/
                             opening = [IsReady false; Initialize true])))).
  { destruct rdy; cbn [negb] in Hi.
    - unfold ret in Hi. inversion Hi; subst. exists [IsReady true]. auto.
    - apply bind_Done in Hi. destruct Hi as (ini & st2' & Hini & Hi).
      apply planner_initialize_Done in Hini.
      unfold ret in Hi. inversion Hi; subst.
      exists [IsReady false; Initialize ini]. split.
      + rewrite Hini, Hr, <- app_assoc. reflexivity.
      + destruct ini; cbn; auto. }
  clear Hi Hr. destruct Hopen as (opening & Hc3 & Hopen).
  destruct ni.
  { destruct Hopen as [[_ ->]|[Hx _]]; [|discriminate].
    unfold ret in H. inversion H; subst.
    eexists. split; [exact Hc3|]. right. left. cbn. auto. }
  destruct Hopen as [[Hx _]|[_ Hopen]]; [discriminate|].
  apply bind_Done in H. destruct H as ([loaded configs] & st4 & Hl & H).
  apply planner_getRoadmapConfigs_Done in Hl.
  cbn [roadmap_configs_ set_roadmap_configs_] in H.
  destruct (negb loaded || (length configs =? 0)%nat) eqn:Hk.
  { unfold ret in H. inversion H; subst.
    exists (opening ++ [GetRoadmapConfigs loaded configs]). split.
    - rewrite Hl, Hc3, <- app_assoc. reflexivity.
    - right. right. exists opening. split; [exact Hopen|]. left.
      exists loaded, configs. cbn. auto. }
  apply orb_false_iff in Hk. destruct Hk as [Hld Hne].
  apply negb_false_iff in Hld. subst loaded.
  assert (Hcfg : configs <> []) by (intros ->; discriminate).
  apply bind_Done in H. destruct H as (config0 & st5 & H0 & H).
  apply deref_Done in H0. destruct H0 as [H0 ->].
  cbn [joint_model_names_ set_roadmap_configs_ set_joint_model_names_] in H.
  destruct (negb (length config0 =? length (getActiveJointModelNames jmg))%nat).
  { unfold ret in H. inversion H; subst.
    exists (opening ++ [GetRoadmapConfigs true configs]). split.
    - rewrite Hl, Hc3, <- app_assoc. reflexivity.
    - right. right. exists opening. split; [exact Hopen|]. left.
      exists true, configs. cbn. auto. }
  apply bind_Done in H. destruct H as ([loaded' poses] & st6 & Hp & H).
  apply planner_getRoadmapTransforms_Done in Hp.
  cbn [roadmap_poses_ set_roadmap_poses_] in H.
  exists (opening ++ [GetRoadmapConfigs true configs;
                      GetRoadmapTransforms loaded' poses]).
  assert (Hlog : calls st6 =
                 calls st ++ opening ++
                 [GetRoadmapConfigs true configs;
                  GetRoadmapTransforms loaded' poses]).
  { rewrite Hp, Hl, Hc3. repeat rewrite <- app_assoc. reflexivity. }
  destruct (negb loaded' || (length poses =? 0)%nat) eqn:Hk;
    unfold ret in H; inversion H; subst; (split; [exact Hlog|]);
    right; right; exists opening; (split; [exact Hopen|]); right;
    exists configs, loaded', poses; cbn;
    (split; [reflexivity|]); (split; [exact Hcfg|]);
    (split; [reflexivity|]); (split; [reflexivity|]).
  - split; [|discriminate]. split; [discriminate|].
    intros [-> Hps]. destruct poses; [congruence|discriminate].
  - apply orb_false_iff in Hk. destruct Hk as [Hld' Hps].
    apply negb_false_iff in Hld'. subst loaded'.
    split; [|reflexivity]. split; [|reflexivity].
    intros _. split; [reflexivity|]. intros ->. discriminate.
Qed.

(** Whether [configure] talks to the engine at all is decided by the
    scene: without one the run leaves the log as it was, with one its
    first call is isReady. *)
Lemma configure_log_scene ctx st code ctx' st' log :
  configure ctx st = Done ((code, ctx'), st') ->
  calls st' = calls st ++ log ->
  (planning_scene_ ctx = None -> log = []) /\
  (forall scene, planning_scene_ ctx = Some scene ->
     exists rest, log = IsReady (fst (isReady (world st))) :: rest).
Proof.
  intros H Hlog. split.
  - intros Hs. unfold configure in H. rewrite Hs in H.
    unfold ret in H. inversion H; subst.
    rewrite <- (app_nil_r (calls st')) in Hlog at 1.
    apply app_inv_head in Hlog. symmetry. exact Hlog.
  - intros scene Hs.
    assert (Hj : exists jmg,
              getJointModelGroup (getCurrentState scene) (group_ ctx) = Some jmg).
    { unfold configure in H. rewrite Hs in H.
      apply bind_Done in H. destruct H as (jmg & st1 & Hj & _).
      apply deref_Done in Hj. destruct Hj as [Hj _].
      exists jmg. exact Hj. }
    destruct Hj as (jmg & Hj).
    destruct (configure_returns ctx st Hs Hj)
      as (code0 & ctx0 & st0 & rest & Hrun & Hc & _).
    rewrite H in Hrun. inversion Hrun; subst.
    rewrite Hlog in Hc. apply app_inv_head in Hc.
    exists rest. exact Hc.
Qed.

(** X1.  configure talks to the engine in a fixed order.  Without a scene
    it makes no call.  With a scene it always calls the engine, and the
    first call is isReady; it calls initialize only when the answer was
    false; it loads the configuration set only from an engine that was
    ready or has just been initialized; and it loads the poses only after
    a non-empty configuration set was loaded with success.  An engine
    that is not ready and fails to initialize ends the run after these
    two calls. *)
Theorem configure_call_order ctx st code ctx' st' :
  configure ctx st = Done ((code, ctx'), st') ->
  exists log,
    calls st' = calls st ++ log /\
    (planning_scene_ ctx = None -> log = []) /\
    (planning_scene_ ctx <> None ->
     (exists rest, log = IsReady (fst (isReady (world st))) :: rest) /\
     (log = [IsReady false; Initialize false] \/
      exists opening,
        (opening = [IsReady true] \/ opening = [IsReady false; Initialize true]) /\
        ((exists loaded configs,
            log = opening ++ [GetRoadmapConfigs loaded configs]) \/
         (exists configs loaded poses,
            configs <> [] /\
            log = opening ++ [GetRoadmapConfigs true configs;
                              GetRoadmapTransforms loaded poses])))).
Proof.
  intros H. pose proof (configure_log _ _ H) as (log & Hc & Hshape).
  destruct (configure_log_scene _ _ _ H Hc) as [Hnone Hsome].
  exists log. split; [exact Hc|]. split; [exact Hnone|].
  intros Hscene.
  destruct (planning_scene_ ctx) as [scene|] eqn:Hs; [|congruence].
  destruct (Hsome scene eq_refl) as (rest & Hfirst).
  split; [exists rest; exact Hfirst|].
  destruct Hshape as [(Hl & _)|[(-> & _)|(opening & Ho & Hshape)]].
  - rewrite Hl in Hfirst. discriminate.
  - left. reflexivity.
  - right. exists opening. split; [exact Ho|].
    destruct Hshape as [(l & c & -> & _)|(c & l & p & -> & Hne & _)].
    + left. eauto.
    + right. exists c, l, p. auto.
Qed.

(** X2.  A successful configure has loaded both sets with success and
    neither is empty: the engine answered true to getRoadmapConfigs and
    to getRoadmapTransforms, these were the last two calls of the run,
    and the context holds exactly the two sets returned.  The number of
    poses is not compared with the number of configurations. *)
Theorem configure_success_loads_both ctx st ctx' st' :
  configure ctx st = Done ((SUCCESS, ctx'), st') ->
  exists before,
    calls st' =
      calls st ++ before ++
      [GetRoadmapConfigs true (roadmap_configs_ ctx');
       GetRoadmapTransforms true (roadmap_poses_ ctx')] /\
    roadmap_configs_ ctx' <> [] /\
    roadmap_poses_ ctx' <> [] /\
    configured_ ctx' = true.
Proof.
  intros H. apply configure_log in H. destruct H as (log & Hc & H).
  destruct H as [(_ & Hf & _)|[(_ & Hf & _)|(opening & Ho & H)]];
    try discriminate.
  destruct H as [(l & c & _ & Hf & _)|(c & l & p & -> & Hne & Hcs & Hps & Hiff & Hflag)];
    [discriminate|].
  destruct Hiff as [Hiff _]. destruct (Hiff eq_refl) as [-> Hp].
  exists opening. subst c p. repeat split; auto.
Qed.

(** X3.  A configure that fails after the engine was asked for the
    configuration set leaves the engine's answer in the context: the set
    the context held before is replaced even though the run reports
    FAILURE, and the flag keeps the value it had. *)
Theorem configure_failure_keeps_loaded_configs ctx st ctx' st' loaded configs
    before after :
  configure ctx st = Done ((FAILURE, ctx'), st') ->
  calls st' = calls st ++ before ++ GetRoadmapConfigs loaded configs :: after ->
  roadmap_configs_ ctx' = configs /\ configured_ ctx' = configured_ ctx.
Proof.
  intros H Hlog. pose proof (configure_cases _ _ H) as Hcase.
  destruct Hcase as [[_ Hflag]|[Hx _]]; [|discriminate].
  split; [|exact Hflag].
  apply configure_log in H. destruct H as (log & Hc & H).
  rewrite Hc in Hlog. apply app_inv_head in Hlog. subst log.
  assert (Hin : forall l, before ++ GetRoadmapConfigs loaded configs :: after = l ->
                In (GetRoadmapConfigs loaded configs) l).
  { intros l <-. apply in_or_app. right. left. reflexivity. }
  destruct H as [(Hl & _)|[(Hl & _)|(opening & Ho & H)]].
  - apply Hin in Hl. destruct Hl.
  - apply Hin in Hl. destruct Hl as [Hl|[Hl|[]]]; discriminate.
  - assert (Hop : ~ In (GetRoadmapConfigs loaded configs) opening).
    { destruct Ho as [-> | ->]; simpl; intuition discriminate. }
    destruct H as [(l & c & Hl & _ & Hcs & _)|(c & l & p & Hl & _ & Hcs & _)];
      apply Hin in Hl; apply in_app_or in Hl;
      destruct Hl as [Hl|Hl]; try contradiction; simpl in Hl.
    + destruct Hl as [Hl|[]]. inversion Hl; subst. reflexivity.
    + destruct Hl as [Hl|[Hl|[]]]; [|discriminate].
      inversion Hl; subst. reflexivity.
Qed.

End ConfigureProtocol.

(** ** initStartState: the two branches *)

Section StartStateBranches.

Context {E : Env}.

Lemma push_back_all (positions : list double) :
  forall start_config : Config,
    fold_left (fun c joint_position => c ++ [float_of_double joint_position])
      positions start_config
    = start_config ++ map float_of_double positions.
Proof.
  induction positions as [|p positions IH]; intros start_config; simpl.
  - rewrite app_nil_r. reflexivity.
  - rewrite IH, <- app_assoc. reflexivity.
Qed.

(** X4.  When the request carries no joint positions, initStartState
    never fails: it returns true with the scene's current positions of
    the group, converted to float, whatever names the request holds and
    without comparing the vector's length with the joint count. *)
Theorem initStartState_falls_back_to_scene ctx st scene :
  planning_scene_ ctx = Some scene ->
  position (joint_state (start_state (request_ ctx))) = [] ->
  initStartState ctx st =
  Done ((true,
         map float_of_double
           (copyJointGroupPositions (getCurrentState scene) (group_ ctx)),
         set_start_state_ ctx (Some (getCurrentState scene))), st).
Proof.
  intros Hs Hp. unfold initStartState. rewrite Hs.
  unfold bind at 1. cbn [deref ret].
  cbn [request_ set_start_state_ joint_model_names_ group_].
  rewrite Hp. cbn [length Nat.eqb negb].
  rewrite push_back_all. reflexivity.
Qed.

Lemma assigned_once (js : JointState) (j : string) :
  length (name js) = length (position js) ->
  NoDup (name js) ->
  In j (name js) ->
  exists p, In (j, p) (combine (name js) (position js)) /\
            assigned js j = [float_of_double p].
Proof.
  intros Hl Hnd Hin.
  assert (Hex : exists p, In (j, p) (combine (name js) (position js))).
  { clear Hnd. revert Hl Hin. generalize (position js).
    induction (name js) as [|n names IH]; intros [|p ps] Hl Hin;
      simpl in *; try contradiction; try discriminate.
    destruct Hin as [->|Hin].
    - exists p. left. reflexivity.
    - destruct (IH ps) as (q & Hq); [lia | exact Hin |].
      exists q. right. exact Hq. }
  destruct Hex as (p & Hp).
  pose proof (@named_at_most_once double j (combine (name js) (position js))) as Hle.
  rewrite map_fst_combine in Hle by exact Hl. specialize (Hle Hnd).
  assert (Hf : In (j, p) (filter (fun e : string * double => String.eqb j (fst e))
                            (combine (name js) (position js)))).
  { apply filter_In. split; [exact Hp|]. simpl. apply String.eqb_refl. }
  unfold assigned.
  destruct (filter (fun e : string * double => String.eqb j (fst e))
              (combine (name js) (position js))) as [|e [|e' r]]; simpl in *.
  - contradiction.
  - destruct Hf as [->|[]]. exists p. split; [exact Hp | reflexivity].
  - lia.
Qed.

(** X5.  A request whose names are pairwise distinct and which names
    every active joint of the group is accepted: the start vector has one
    entry for each active joint, in the group's order, and the entry of a
    joint is the value the request pairs with its name; joints of the
    request that are not in the group are ignored.  The request's names
    and positions are then written to [start_state_]. *)
Theorem initStartState_accepts_complete_request ctx st scene :
  planning_scene_ ctx = Some scene ->
  position (joint_state (start_state (request_ ctx))) <> [] ->
  length (name (joint_state (start_state (request_ ctx)))) =
  length (position (joint_state (start_state (request_ ctx)))) ->
  NoDup (name (joint_state (start_state (request_ ctx)))) ->
  (forall j, In j (joint_model_names_ ctx) ->
             In j (name (joint_state (start_state (request_ ctx))))) ->
  exists start_config ctx',
    initStartState ctx st = Done ((true, start_config, ctx'), st) /\
    length start_config = length (joint_model_names_ ctx) /\
    (forall i j,
       nth_error (joint_model_names_ ctx) i = Some j ->
       exists p,
         In (j, p) (combine (name (joint_state (start_state (request_ ctx))))
                      (position (joint_state (start_state (request_ ctx))))) /\
         nth_error start_config i = Some (float_of_double p)) /\
    start_state_ ctx' =
      Some (setVariablePositions
              (name (joint_state (start_state (request_ ctx))))
              (position (joint_state (start_state (request_ ctx))))
              (getCurrentState scene)).
Proof.
  intros Hs Hp Hl Hnd Hall.
  set (js := joint_state (start_state (request_ ctx))) in *.
  assert (Hone : forall j, In j (joint_model_names_ ctx) ->
                 exists p, In (j, p) (combine (name js) (position js)) /\
                           assigned js j = [float_of_double p]).
  { intros j Hj. apply assigned_once; auto. }
  assert (Hlen : length (flat_map (assigned js) (joint_model_names_ ctx))
                 = length (joint_model_names_ ctx)).
  { clear Hall. induction (joint_model_names_ ctx) as [|j l IH]; simpl;
      [reflexivity|].
    destruct (Hone j (or_introl eq_refl)) as (p & _ & Hj).
    rewrite length_app, Hj. simpl. f_equal. apply IH.
    intros x Hx. apply Hone. right. exact Hx. }
  assert (Hle : (length (position js) <= length (name js))%nat) by lia.
  exists (flat_map (assigned js) (joint_model_names_ ctx)). eexists.
  split; [|split; [exact Hlen|split]].
  - unfold initStartState. rewrite Hs. unfold bind at 1. cbn [deref ret].
    cbn [request_ set_start_state_ joint_model_names_ group_]. fold js.
    destruct (position js) as [|p ps] eqn:Hpos; [congruence|].
    cbn [length Nat.eqb negb]. rewrite <- Hpos in *.
    unfold bind at 1. rewrite push_joints_spec by exact Hle. cbn [lift app].
    rewrite Hlen, Nat.eqb_refl. cbn [negb ret]. reflexivity.
  - clear Hlen Hall. induction (joint_model_names_ ctx) as [|j0 l IH];
      intros i j Hi.
    + destruct i; discriminate.
    + destruct (Hone j0 (or_introl eq_refl)) as (p0 & Hin0 & Hj0).
      simpl. rewrite Hj0. destruct i as [|i]; simpl in *.
      * inversion Hi; subst. exists p0. auto.
      * apply IH; [|exact Hi]. intros x Hx. apply Hone. right. exact Hx.
  - reflexivity.
Qed.

Lemma push_matching_short_names (j : string) (positions : list double) :
  forall (names : list string) (start_config : Config),
    (length names < length positions)%nat ->
    push_matching j names positions start_config = Undefined.
Proof.
  induction positions as [|p positions IH]; intros names start_config Hl;
    simpl in Hl; [lia|].
  destruct names as [|n names]; simpl; [reflexivity|].
  apply IH. simpl in Hl. lia.
Qed.

(** X6.  A request with more positions than names makes the inner loop
    read [name[i]] past the end of the array as soon as the group has an
    active joint: the index runs over the positions, and nothing compares
    the two lengths first. *)
Theorem initStartState_reads_past_names ctx st scene :
  planning_scene_ ctx = Some scene ->
  joint_model_names_ ctx <> [] ->
  (length (name (joint_state (start_state (request_ ctx)))) <
   length (position (joint_state (start_state (request_ ctx)))))%nat ->
  initStartState ctx st = Undefined.
Proof.
  intros Hs Hn Hl. unfold initStartState. rewrite Hs.
  unfold bind at 1. cbn [deref ret].
  cbn [request_ set_start_state_ joint_model_names_ group_].
  destruct (position (joint_state (start_state (request_ ctx)))) as [|p ps] eqn:Hpos;
    [simpl in Hl; lia|].
  cbn [length Nat.eqb negb]. rewrite <- Hpos in *.
  unfold bind at 1.
  destruct (joint_model_names_ ctx) as [|j rest]; [congruence|].
  cbn [push_joints]. rewrite push_matching_short_names by exact Hl.
  reflexivity.
Qed.

End StartStateBranches.

(** ** The goal resolver: when it gives up and what it emits *)

Section ResolverBehaviour.

Context {E : Env}.

Lemma sample_goal_gives_up ctx scene samplers robot_state fuel :
  forall sample_state sample_config distances goal goal_state st goal'
         goal_state' st',
    sample_goal fuel ctx scene samplers robot_state sample_state sample_config
      distances goal goal_state st = Done ((false, goal', goal_state'), st') ->
    exists w,
      world st' = snd (now w) /\
      (terminate_plan_time_ ctx <= fst (now w))%Z.
Proof.
  induction fuel as [|fuel IH];
    intros sample_state sample_config distances goal goal_state st goal'
           goal_state' st' H.
  { discriminate. }
  cbn [sample_goal] in H.
  apply bind_Done in H. destruct H as (t & st1 & Ht & H).
  apply Time_now_calls in Ht. destruct Ht as (Ht & Hw & _).
  destruct (t <? terminate_plan_time_ ctx)%Z eqn:Hlt.
  2:{ unfold ret in H. inversion H; subst. exists (world st).
      split; [exact Hw|]. apply Z.ltb_ge. exact Hlt. }
  apply bind_Done in H. destruct H as ([sampled s] & st2 & _ & H).
  destruct sampled; cbn [negb] in H.
  2:{ eapply IH. exact H. }
  apply bind_Done in H. destruct H as (sc & st3 & _ & H).
  destruct (findClosestConfigs sc (roadmap_configs_ ctx) (state_ids goal)
              distances max_goal_states allowed_joint_distance)
    as [ids distances'].
  cbn [state_ids type] in H.
  destruct (negb (length ids =? 0)%nat).
  - unfold ret in H. inversion H.
  - eapply IH. exact H.
Qed.

(** X7.  The resolver gives up on a goal constraint only at the deadline:
    when getRapidPlanGoal returns false, the last thing it did was read
    the clock, and the reading was not before [terminate_plan_time_].  A
    sampler that fails, or a sample with no roadmap state in reach, never
    ends the loop.  The caller's [goal_state] is left as it was and the
    engine is not called. *)
Theorem getRapidPlanGoal_gives_up_at_deadline fuel ctx goal_constraint goal
    goal_state st goal' goal_state' st' :
  getRapidPlanGoal fuel ctx goal_constraint goal goal_state st
    = Done ((false, goal', goal_state'), st') ->
  (exists w,
     world st' = snd (now w) /\
     (terminate_plan_time_ ctx <= fst (now w))%Z) /\
  goal_state' = goal_state /\
  calls st' = calls st.
Proof.
  intros H. pose proof (getRapidPlanGoal_spec _ _ _ _ _ _ H) as (Hc & _ & Hgs & _).
  split; [|split; [apply Hgs; reflexivity | exact Hc]].
  unfold getRapidPlanGoal in H.
  apply bind_Done in H. destruct H as (scene & st1 & Hs & H).
  apply deref_Done in Hs. destruct Hs as [Hs ->].
  apply bind_Done in H. destruct H as (jmg & st2 & Hj & H).
  apply deref_Done in Hj. destruct Hj as [Hj ->].
  eapply sample_goal_gives_up. exact H.
Qed.

(** X8.  Once the clock has reached [terminate_plan_time_], the resolver
    reads the clock once and returns false: it draws no sample (the world
    is changed by that one reading only), makes no call to the engine and
    leaves the caller's [goal_state] as it was. *)
Theorem getRapidPlanGoal_draws_nothing_after_deadline fuel ctx goal_constraint
    goal goal_state st scene jmg :
  planning_scene_ ctx = Some scene ->
  jmg_ ctx = Some jmg ->
  (terminate_plan_time_ ctx <= fst (now (world st)))%Z ->
  exists goal' st',
    getRapidPlanGoal (S fuel) ctx goal_constraint goal goal_state st
      = Done ((false, goal', goal_state), st') /\
    world st' = snd (now (world st)) /\
    calls st' = calls st.
Proof.
  intros Hs Hj Hlate. unfold getRapidPlanGoal. rewrite Hs, Hj.
  unfold bind at 1. cbn [deref ret]. unfold bind at 1. cbn [deref ret].
  cbn [sample_goal]. unfold bind at 1. unfold Time_now.
  destruct (now (world st)) as [t w] eqn:Hnow. cbn [fst snd] in *.
  apply Z.ltb_ge in Hlate. rewrite Hlate.
  do 2 eexists. split; [reflexivity|]. cbn. auto.
Qed.

Lemma extract_goals_grow fuel constraints :
  forall ctx goals st goals' ctx' st',
    extract_goals fuel ctx constraints goals st = Done ((goals', ctx'), st') ->
    exists resolved states,
      goals' = goals ++ resolved /\
      goal_states_ ctx' = goal_states_ ctx ++ map Some states /\
      length resolved = length states /\
      (length resolved <= length constraints)%nat /\
      Forall (fun g => type g = STATE_IDS /\ state_ids g <> []) resolved.
Proof.
  induction constraints as [|c rest IH]; intros ctx goals st goals' ctx' st' H.
  - cbn [extract_goals] in H. unfold ret in H. inversion H; subst.
    exists [], []. simpl. rewrite !app_nil_r. repeat split; auto.
  - cbn [extract_goals] in H.
    apply bind_Done in H. destruct H as ([[found goal] gs] & st1 & Hg & H).
    apply getRapidPlanGoal_spec in Hg. destruct Hg as (_ & Hty & _ & Hfound).
    destruct found.
    + destruct (Hfound eq_refl)
        as (scene & smp & s & ps & w & w' & pc & sc & pi & pd & d' &
            _ & _ & Hgs & _ & _ & Hne).
      apply IH in H.
      destruct H as (resolved & states & Hr & Hs & Hl & Hle & Hall).
      cbn [goal_states_ set_goal_states_] in Hs.
      exists (goal :: resolved), (s :: states). subst gs.
      rewrite Hr, Hs, <- !app_assoc. simpl.
      repeat split; auto; lia.
    + apply IH in H.
      destruct H as (resolved & states & Hr & Hs & Hl & Hle & Hall).
      exists resolved, states. simpl. repeat split; auto.
Qed.

(** X9.  initRapidPlanGoals only appends.  The candidates it adds to
    [goals] and the states it adds to [goal_states_] come in pairs, at
    most one pair for each goal constraint; every candidate added has
    type STATE_IDS and a non-empty list of state IDs, and every state
    added is a sample (never a null pointer).  It returns true exactly
    when the constraint list is not empty and [goals] is not empty
    afterwards. *)
Theorem initRapidPlanGoals_appends_pairs fuel ctx constraints goals st
    extracted goals' ctx' st' :
  initRapidPlanGoals fuel ctx constraints goals st
    = Done ((extracted, goals', ctx'), st') ->
  (exists resolved states,
     goals' = goals ++ resolved /\
     goal_states_ ctx' = goal_states_ ctx ++ map Some states /\
     length resolved = length states /\
     (length resolved <= length constraints)%nat /\
     Forall (fun g => type g = STATE_IDS /\ state_ids g <> []) resolved) /\
  (extracted = true <-> constraints <> [] /\ goals' <> []).
Proof.
  unfold initRapidPlanGoals. intros H.
  apply bind_Done in H. destruct H as ([goals1 ctx1] & st1 & Hx & H).
  apply extract_goals_grow in Hx.
  unfold ret in H. inversion H; subst. clear H.
  split; [exact Hx|].
  destruct constraints as [|c cs]; cbn [length Nat.eqb].
  - split; [discriminate | intros [Hn _]; congruence].
  - destruct goals' as [|g gs]; cbn [length Nat.eqb].
    + split; [discriminate | intros [_ Hn]; congruence].
    + split; [|reflexivity]. intros _. split; discriminate.
Qed.

End ResolverBehaviour.

(** ** solve: what each result code tells the caller *)

Section SolveResults.

Context {E : Env}.

Lemma planner_solve_Done roadmap start_config goal collision_voxels timeout
    solution_path st solved path st1 :
  planner_solve roadmap start_config goal collision_voxels timeout
    solution_path st = Done ((solved, path), st1) ->
  calls st1 = calls st ++ [Solve start_config goal timeout solved path].
Proof.
  unfold planner_solve.
  destruct (planner_interface_solve roadmap start_config goal collision_voxels
              timeout solution_path (world st)) as [[s p] w].
  intros H. inversion H. reflexivity.
Qed.

(** A finished run of the loop, read backwards: its attempts, its shape,
    and the budget of every attempt. *)
Lemma plan_goals_Done ctx scene start_config collision_voxels result trajectory :
  planning_scene_ ctx = Some scene ->
  forall goals solution_path st code trajectory' st',
    plan_goals ctx start_config collision_voxels goals solution_path result
      trajectory st = Done ((code, trajectory'), st') ->
    exists attempts,
      calls st' = calls st ++ map (attempt_call start_config) attempts /\
      plan_run ctx scene result trajectory goals attempts code trajectory' /\
      Forall (fun a => 0 < a_timeout a) attempts.
Proof.
  intros Hs. induction goals as [|goal rest IH];
    intros solution_path st code trajectory' st' H.
  - cbn [plan_goals] in H. unfold ret in H. inversion H; subst.
    exists []. simpl. rewrite app_nil_r. repeat split; constructor.
  - cbn [plan_goals] in H.
    apply bind_Done in H. destruct H as (t & st1 & Ht & H).
    apply Time_now_calls in Ht. destruct Ht as (_ & _ & Hc1).
    set (timeout := toSec (terminate_plan_time_ ctx - t)%Z * 1000) in *.
    destruct (Qle_bool timeout 0) eqn:Hq.
    { unfold ret in H. inversion H; subst. exists []. simpl.
      rewrite app_nil_r. repeat split; auto; constructor. }
    assert (Hpos : 0 < timeout).
    { apply Qnot_le_lt. intros Hle. apply Qle_bool_iff in Hle. congruence. }
    apply bind_Done in H. destruct H as ([solved path] & st2 & Hcall & H).
    apply planner_solve_Done in Hcall.
    set (a := {| a_goal := goal; a_timeout := timeout;
                 a_answer := solved; a_path := path |}).
    assert (Hlog : calls st2 = calls st ++ [attempt_call start_config a])
      by (rewrite Hcall, Hc1; reflexivity).
    destruct solved.
    + destruct (length path =? 0)%nat eqn:Hlen.
      * apply IH in H. destruct H as (attempts & Hc & Hshape & Hb).
        exists (a :: attempts). split; [|split].
        -- rewrite Hc, Hlog, <- app_assoc. reflexivity.
        -- apply run_continue; [reflexivity| |exact Hshape].
           unfold succeeded. cbn. rewrite Hlen. reflexivity.
        -- constructor; [exact Hpos | exact Hb].
      * rewrite Hs in H. unfold bind in H. cbn [deref ret] in H.
        inversion H; subst. exists [a]. split; [exact Hlog|]. split.
        -- apply (@run_success _ ctx scene result trajectory goal rest a);
             [reflexivity|].
           unfold succeeded. cbn. rewrite Hlen. reflexivity.
        -- constructor; [exact Hpos | constructor].
    + apply IH in H. destruct H as (attempts & Hc & Hshape & Hb).
      exists (a :: attempts). split; [|split].
      * rewrite Hc, Hlog, <- app_assoc. reflexivity.
      * apply run_continue; [reflexivity|reflexivity|exact Hshape].
      * constructor; [exact Hpos | exact Hb].
Qed.

(** How a run of the loop can end. *)
Lemma run_outcome ctx scene result trajectory goals attempts code trajectory' :
  plan_run ctx scene result trajectory goals attempts code trajectory' ->
  (code = SUCCESS /\
   exists earlier a,
     attempts = earlier ++ [a] /\
     Forall (fun b => succeeded b = false) earlier /\
     succeeded a = true /\ In (a_goal a) goals /\
     trajectory' = Some (converted ctx scene (a_path a))) \/
  (code = TIMED_OUT /\
   Forall (fun b => succeeded b = false) attempts /\
   (length attempts < length goals)%nat /\ trajectory' = trajectory) \/
  (code = result /\
   Forall (fun b => succeeded b = false) attempts /\
   map a_goal attempts = goals /\ trajectory' = trajectory).
Proof.
  induction 1 as [|goal rest|goal rest a Hg Hs|goal rest a attempts code tr' Hg Hs _ IH].
  - right. right. repeat split; constructor.
  - right. left. repeat split; [constructor | simpl; lia].
  - left. split; [reflexivity|]. exists [], a. simpl.
    repeat split; auto.
  - destruct IH as [(Hc & earlier & b & He & Hf & Hb & Hin & Ht)
                   |[(Hc & Hf & Hl & Ht)|(Hc & Hf & Hm & Ht)]].
    + left. split; [exact Hc|]. exists (a :: earlier), b. subst attempts.
      simpl. repeat split; auto.
    + right. left. repeat split; auto. simpl. lia.
    + right. right. repeat split; auto. simpl. rewrite Hg, Hm. reflexivity.
Qed.

(** The two ways [solve] returns: before the loop, with FAILURE and
    nothing touched, or after a run of the loop over the candidates. *)
Lemma solve_cases fuel ctx trajectory planning_time st code trajectory'
    planning_time' ctx' st' :
  solve fuel ctx trajectory planning_time st
    = Done ((code, trajectory', planning_time', ctx'), st') ->
  (code = FAILURE /\ trajectory' = trajectory /\
   planning_time' = planning_time /\ calls st' = calls st) \/
  (exists start_config scene attempts,
     configured_ ctx = true /\
     planning_scene_ ctx' = Some scene /\
     goals_ ctx' <> [] /\
     calls st' = calls st ++ map (attempt_call start_config) attempts /\
     plan_run ctx' scene PLANNING_FAILED trajectory (goals_ ctx') attempts code
       trajectory' /\
     Forall (fun a => 0 < a_timeout a) attempts).
Proof.
  unfold solve. intros H.
  apply bind_Done in H. destruct H as (t & st0 & Hnow & H).
  apply Time_now_calls in Hnow. destruct Hnow as (_ & _ & Hc0).
  cbn [configured_ request_ goals_ set_terminate_plan_time_] in H.
  destruct (configured_ ctx) eqn:Hconf; cbn [negb] in H.
  2:{ unfold ret in H. inversion H; subst. left. auto. }
  apply bind_Done in H. destruct H as ([[extracted goals] ctx1] & st1 & Hinit & H).
  apply initRapidPlanGoals_spec in Hinit.
  destruct Hinit as (Hc1 & _ & _ & Hne & _).
  destruct extracted; cbn [negb] in H.
  2:{ unfold ret in H. inversion H; subst. left. repeat split; congruence. }
  destruct (Hne eq_refl) as [_ Hgoals].
  apply bind_Done in H. destruct H as (scene & st2 & Hs & H).
  apply deref_Done in Hs. destruct Hs as [Hs ->].
  apply bind_Done in H. destruct H as ([[started sc] ctx2] & st3 & Hstart & H).
  apply initStartState_Done in Hstart.
  destruct Hstart as (-> & scene' & s & Hs' & Hctx2).
  destruct started; cbn [negb] in H.
  2:{ unfold ret in H. inversion H; subst. left. repeat split; congruence. }
  apply bind_Done in H. destruct H as ([code' tr'] & st4 & Hloop & H).
  apply bind_Done in H. destruct H as (t' & st5 & Hend & H).
  apply Time_now_calls in Hend. destruct Hend as (_ & _ & Hc5).
  unfold ret in H. inversion H; subst. clear H.
  cbn [planning_scene_ set_goals_] in Hs'.
  eapply plan_goals_Done in Hloop; [|cbn; exact Hs'].
  destruct Hloop as (attempts & Hc & Hshape & Hb).
  right. exists sc, scene', attempts. cbn in *.
  repeat split; auto. congruence.
Qed.

(** X10.  A context that is not configured refuses to solve: the call
    returns FAILURE after reading the clock once.  It resolves no goal,
    draws no sample, makes no call to the engine, and leaves the
    candidate list and the two outputs as they were; only
    [terminate_plan_time_] is written. *)
Theorem solve_refuses_unconfigured fuel ctx trajectory planning_time st :
  configured_ ctx = false ->
  exists st',
    solve fuel ctx trajectory planning_time st =
    Done ((FAILURE, trajectory, planning_time,
           set_terminate_plan_time_ ctx
             (fst (now (world st)) +
              Duration_fromSec (allowed_planning_time (request_ ctx)))%Z),
          st') /\
    world st' = snd (now (world st)) /\
    calls st' = calls st.
Proof.
  intros Hconf.
  destruct (Time_now_total st) as (st0 & Hnow & Hw & Hc).
  exists st0. split; [|split; [exact Hw | exact Hc]].
  unfold solve. rewrite (bind_step _ _ _ Hnow).
  cbn [configured_ set_terminate_plan_time_]. rewrite Hconf. reflexivity.
Qed.

(** X11.  FAILURE means nothing was attempted: whenever solve returns
    FAILURE the engine was not called during the call, and the caller's
    trajectory and planning time are unchanged. *)
Theorem solve_failure_touches_nothing fuel ctx trajectory planning_time st
    trajectory' planning_time' ctx' st' :
  solve fuel ctx trajectory planning_time st
    = Done ((FAILURE, trajectory', planning_time', ctx'), st') ->
  trajectory' = trajectory /\
  planning_time' = planning_time /\
  calls st' = calls st.
Proof.
  intros H. apply solve_cases in H.
  destruct H as [(_ & Ht & Hp & Hc)|(sc & scene & attempts & _ & _ & _ & _ & Hshape & _)];
    [auto|].
  apply run_outcome in Hshape.
  destruct Hshape as [(Hx & _)|[(Hx & _)|(Hx & _)]]; discriminate.
Qed.

(** X12.  The trajectory is written only on SUCCESS.  When solve returns
    SUCCESS the last call it made to the engine was for one of the
    context's candidates and was answered true with a non-empty path,
    every call before it had failed or returned an empty path, and the
    trajectory is the conversion of that last path; with every other
    result the caller's trajectory is unchanged. *)
Theorem solve_writes_trajectory_on_success_only fuel ctx trajectory
    planning_time st code trajectory' planning_time' ctx' st' :
  solve fuel ctx trajectory planning_time st
    = Done ((code, trajectory', planning_time', ctx'), st') ->
  (code <> SUCCESS -> trajectory' = trajectory) /\
  (code = SUCCESS ->
   exists start_config scene earlier a,
     calls st' =
       calls st ++ map (attempt_call start_config) earlier
       ++ [attempt_call start_config a] /\
     Forall (fun b => a_answer b = false \/ a_path b = []) earlier /\
     a_answer a = true /\ a_path a <> [] /\
     In (a_goal a) (goals_ ctx') /\
     planning_scene_ ctx' = Some scene /\
     trajectory' = Some (converted ctx' scene (a_path a))).
Proof.
  intros H. apply solve_cases in H.
  destruct H as [(Hf & Ht & _)|(sc & scene & attempts & _ & Hs & _ & Hc & Hshape & _)].
  { split; [auto | congruence]. }
  apply run_outcome in Hshape.
  assert (Hsucc : forall b, succeeded b = true ->
                            a_answer b = true /\ a_path b <> []).
  { intros b Hb. unfold succeeded in Hb. apply andb_prop in Hb.
    destruct Hb as [Ha Hp]. split; [exact Ha|].
    intros Hn. rewrite Hn in Hp. discriminate. }
  assert (Hfail : forall b, succeeded b = false ->
                            a_answer b = false \/ a_path b = []).
  { intros b Hb. unfold succeeded in Hb. apply andb_false_iff in Hb.
    destruct Hb as [Ha|Hp]; [left; exact Ha|].
    right. destruct (a_path b); [reflexivity | discriminate]. }
  destruct Hshape as [(Hx & earlier & a & He & Hf & Ha & Hin & Ht)
                     |[(Hx & _ & _ & Ht)|(Hx & _ & _ & Ht)]].
  - split; [congruence|]. intros _.
    exists sc, scene, earlier, a. destruct (Hsucc a Ha) as [Hans Hpath].
    repeat split; auto.
    + rewrite Hc, He, map_app. reflexivity.
    + eapply Forall_impl; [|exact Hf]. exact Hfail.
  - split; [auto | congruence].
  - split; [auto | congruence].
Qed.


(** X14.  Whatever solve logs is calls of the engine's solve, all with
    the same start configuration and each with a budget greater than
    zero: a candidate is never passed to the engine once the remaining
    time is zero or negative, and solve calls no other engine method. *)
Theorem solve_budgets_are_positive fuel ctx trajectory planning_time st code
    trajectory' planning_time' ctx' st' :
  solve fuel ctx trajectory planning_time st
    = Done ((code, trajectory', planning_time', ctx'), st') ->
  exists start_config attempts,
    calls st' = calls st ++ map (attempt_call start_config) attempts /\
    Forall (fun a => 0 < a_timeout a) attempts.
Proof.
  intros H. apply solve_cases in H.
  destruct H as [(_ & _ & _ & Hc)|(sc & scene & attempts & _ & _ & _ & Hc & _ & Hb)].
  - exists [], []. simpl. rewrite app_nil_r. split; [exact Hc | constructor].
  - exists sc, attempts. split; [exact Hc | exact Hb].
Qed.



End SolveResults.


(** ** These properties at work in the scripted world *)

Lemma configure_call_order_witness :
  exists log rest,
    calls (Scripted.final
             (configure Scripted.fresh
                (Scripted.begin (Scripted.engine [] [] []))))
    = calls (Scripted.begin (Scripted.engine [] [] [])) ++ log /\
    log = @IsReady Scripted.env true :: rest.
Proof.
  pose (st := Scripted.begin (Scripted.engine [] [] [])).
  pose (o := configure Scripted.fresh st).
  pose (r := Scripted.value (FAILURE, Scripted.fresh) o).
  destruct (@configure_call_order Scripted.env Scripted.fresh st (fst r)
              (snd r) (Scripted.final o))
    as (log & Hc & _ & Hscene).
  - vm_cast_no_check (eq_refl o).
  - destruct Hscene as ((rest & Hfirst) & _).
    + discriminate.
    + exists log, rest. split; [exact Hc | exact Hfirst].
Defined.

Lemma configure_success_loads_both_witness :
  roadmap_configs_ Scripted.configured <> [] /\
  roadmap_poses_ Scripted.configured <> [].
Proof.
  pose (st := Scripted.begin (Scripted.engine [] [] [])).
  pose (o := configure Scripted.fresh st).
  destruct (@configure_success_loads_both Scripted.env Scripted.fresh st
              Scripted.configured (Scripted.final o))
    as (before & _ & Hc & Hp & _).
  - vm_cast_no_check (eq_refl o).
  - split; [exact Hc | exact Hp].
Defined.

Lemma configure_failure_keeps_loaded_configs_witness :
  roadmap_configs_
    (snd (Scripted.value (FAILURE, Scripted.configured)
            (configure Scripted.configured (Scripted.begin Scripted.mismatched))))
  = [[1; 2; 3]] /\
  configured_
    (snd (Scripted.value (FAILURE, Scripted.configured)
            (configure Scripted.configured (Scripted.begin Scripted.mismatched))))
  = configured_ Scripted.configured.
Proof.
  pose (st := Scripted.begin Scripted.mismatched).
  pose (o := configure Scripted.configured st).
  pose (r := Scripted.value (FAILURE, Scripted.configured) o).
  apply (@configure_failure_keeps_loaded_configs Scripted.env
           Scripted.configured st (snd r) (Scripted.final o) true [[1; 2; 3]]
           [IsReady true] []).
  - vm_cast_no_check (eq_refl o).
  - vm_cast_no_check (eq_refl (calls (Scripted.final o))).
Defined.

Lemma initStartState_falls_back_to_scene_witness :
  exists ctx',
    initStartState Scripted.configured (Scripted.begin Scripted.first_call)
      = Done ((true, [0; 0], ctx'), Scripted.begin Scripted.first_call).
Proof.
  eexists.
  apply (@initStartState_falls_back_to_scene Scripted.env Scripted.configured
           (Scripted.begin Scripted.first_call) Scripted.arm).
  - vm_cast_no_check (eq_refl (Some Scripted.arm)).
  - vm_cast_no_check (eq_refl (@nil double)).
Defined.

Lemma initStartState_accepts_complete_request_witness :
  exists start_config ctx',
    initStartState (with_joint_state Scripted.configured Scripted.elbow_first)
      (Scripted.begin Scripted.first_call)
      = Done ((true, start_config, ctx'), Scripted.begin Scripted.first_call) /\
    length start_config
    = length (joint_model_names_
                (with_joint_state Scripted.configured Scripted.elbow_first)).
Proof.
  destruct (@initStartState_accepts_complete_request Scripted.env
              (with_joint_state Scripted.configured Scripted.elbow_first)
              (Scripted.begin Scripted.first_call) Scripted.arm)
    as (start_config & ctx' & Hrun & Hlen & _).
  - vm_cast_no_check (eq_refl (Some Scripted.arm)).
  - discriminate.
  - reflexivity.
  - repeat constructor; simpl; intuition discriminate.
  - assert (Hn : joint_model_names_
                   (with_joint_state Scripted.configured Scripted.elbow_first)
                 = ["shoulder"; "elbow"]%string)
      by (vm_cast_no_check (eq_refl ["shoulder"; "elbow"]%string)).
    rewrite Hn. simpl. intros j [<-|[<-|[]]]; auto.
  - exists start_config, ctx'. split; [exact Hrun | exact Hlen].
Defined.

Lemma initStartState_reads_past_names_witness :
  initStartState (with_joint_state Scripted.configured Scripted.short_names)
    (Scripted.begin Scripted.first_call) = Undefined.
Proof.
  apply (@initStartState_reads_past_names Scripted.env
           (with_joint_state Scripted.configured Scripted.short_names)
           (Scripted.begin Scripted.first_call) Scripted.arm).
  - vm_cast_no_check (eq_refl (Some Scripted.arm)).
  - assert (Hn : joint_model_names_
                   (with_joint_state Scripted.configured Scripted.short_names)
                 = ["shoulder"; "elbow"]%string)
      by (vm_cast_no_check (eq_refl ["shoulder"; "elbow"]%string)).
    rewrite Hn. discriminate.
  - simpl. lia.
Defined.

Lemma getRapidPlanGoal_gives_up_at_deadline_witness :
  snd (Scripted.value (true, {| type := STATE_IDS; state_ids := [] |}, None)
         (getRapidPlanGoal 5 Scripted.planning (Scripted.joint_goal "elbow" 100)
            {| type := STATE_IDS; state_ids := [] |} None
            (Scripted.begin Scripted.unresolved_call)))
  = None /\
  calls (Scripted.final
           (getRapidPlanGoal 5 Scripted.planning
              (Scripted.joint_goal "elbow" 100)
              {| type := STATE_IDS; state_ids := [] |} None
              (Scripted.begin Scripted.unresolved_call)))
  = calls (Scripted.begin Scripted.unresolved_call).
Proof.
  pose (st := Scripted.begin Scripted.unresolved_call).
  pose (o := getRapidPlanGoal 5 Scripted.planning
               (Scripted.joint_goal "elbow" 100)
               {| type := STATE_IDS; state_ids := [] |} None st).
  pose (r := Scripted.value
               (true, {| type := STATE_IDS; state_ids := [] |}, None) o).
  destruct (@getRapidPlanGoal_gives_up_at_deadline Scripted.env 5
              Scripted.planning (Scripted.joint_goal "elbow" 100)
              {| type := STATE_IDS; state_ids := [] |} None st
              (snd (fst r)) (snd r) (Scripted.final o))
    as (_ & Hgs & Hc).
  - vm_cast_no_check (eq_refl o).
  - split; [exact Hgs | exact Hc].
Defined.

Lemma getRapidPlanGoal_draws_nothing_after_deadline_witness :
  exists goal' st',
    getRapidPlanGoal 1 Scripted.configured (Scripted.joint_goal "elbow" 1)
      {| type := STATE_IDS; state_ids := [] |} None
      (Scripted.begin Scripted.first_call)
      = Done ((false, goal', None), st') /\
    calls st' = calls (Scripted.begin Scripted.first_call).
Proof.
  destruct (@getRapidPlanGoal_draws_nothing_after_deadline Scripted.env 0
              Scripted.configured (Scripted.joint_goal "elbow" 1)
              {| type := STATE_IDS; state_ids := [] |} None
              (Scripted.begin Scripted.first_call) Scripted.arm
              {| getActiveJointModels :=
                   [{| getName := "shoulder" |}; {| getName := "elbow" |}] |})
    as (goal' & st' & Hrun & _ & Hc).
  - vm_cast_no_check (eq_refl (Some Scripted.arm)).
  - vm_cast_no_check
      (eq_refl (Some {| getActiveJointModels :=
                          [{| getName := "shoulder" |};
                           {| getName := "elbow" |}] |})).
  - assert (Ht : terminate_plan_time_ Scripted.configured = 0%Z)
      by (vm_cast_no_check (eq_refl 0%Z)).
    rewrite Ht. simpl. lia.
  - exists goal', st'. split; [exact Hrun | exact Hc].
Defined.

Lemma initRapidPlanGoals_appends_pairs_witness :
  exists resolved (states : list (@RobotState Scripted.env)),
    snd (fst (Scripted.value (false, [], Scripted.planning)
                (initRapidPlanGoals 5 Scripted.planning
                   (goal_constraints Scripted.three_goals) []
                   (Scripted.begin Scripted.second_succeeds))))
    = [] ++ resolved /\
    length resolved = length states.
Proof.
  pose (st := Scripted.begin Scripted.second_succeeds).
  pose (o := initRapidPlanGoals 5 Scripted.planning
               (goal_constraints Scripted.three_goals) [] st).
  pose (r := Scripted.value (false, [], Scripted.planning) o).
  destruct (@initRapidPlanGoals_appends_pairs Scripted.env 5 Scripted.planning
              (goal_constraints Scripted.three_goals) [] st
              (fst (fst r)) (snd (fst r)) (snd r) (Scripted.final o))
    as ((resolved & states & Hr & _ & Hl & _) & _).
  - vm_cast_no_check (eq_refl o).
  - exists resolved, states. split; [exact Hr | exact Hl].
Defined.

Lemma solve_refuses_unconfigured_witness :
  exists ctx' st',
    solve 5 (setMotionPlanRequest Scripted.fresh Scripted.one_goal) None 7
      (Scripted.begin Scripted.first_call)
      = Done ((FAILURE, None, 7, ctx'), st') /\
    calls st' = calls (Scripted.begin Scripted.first_call).
Proof.
  destruct (@solve_refuses_unconfigured Scripted.env 5
              (setMotionPlanRequest Scripted.fresh Scripted.one_goal) None 7
              (Scripted.begin Scripted.first_call) eq_refl)
    as (st' & Hrun & _ & Hc).
  do 2 eexists. split; [exact Hrun | exact Hc].
Defined.

Lemma solve_failure_touches_nothing_witness :
  snd (fst (Scripted.value
              (SUCCESS, None, 0,
               setMotionPlanRequest Scripted.configured Scripted.no_time)
              (solve 5 (setMotionPlanRequest Scripted.configured Scripted.no_time)
                 None 7 (Scripted.begin Scripted.first_call))))
  = 7 /\
  calls (Scripted.final
           (solve 5 (setMotionPlanRequest Scripted.configured Scripted.no_time)
              None 7 (Scripted.begin Scripted.first_call)))
  = calls (Scripted.begin Scripted.first_call).
Proof.
  pose (ctx := setMotionPlanRequest Scripted.configured Scripted.no_time).
  pose (st := Scripted.begin Scripted.first_call).
  pose (o := solve 5 ctx None 7 st).
  pose (r := Scripted.value (SUCCESS, None, 0, ctx) o).
  destruct (@solve_failure_touches_nothing Scripted.env 5 ctx None 7 st
              (snd (fst (fst r))) (snd (fst r)) (snd r) (Scripted.final o))
    as (_ & Hp & Hc).
  - vm_cast_no_check (eq_refl o).
  - split; [exact Hp | exact Hc].
Defined.

Lemma solve_writes_trajectory_on_success_only_witness :
  exists start_config earlier a,
    calls (Scripted.final
             (solve 5
                (setMotionPlanRequest Scripted.configured Scripted.one_goal)
                None 0 (Scripted.begin Scripted.second_call)))
    = calls (Scripted.begin Scripted.second_call)
      ++ map (attempt_call start_config) earlier
      ++ [attempt_call start_config a] /\
    a_answer a = true /\ a_path a <> [].
Proof.
  pose (ctx := setMotionPlanRequest Scripted.configured Scripted.one_goal).
  pose (st := Scripted.begin Scripted.second_call).
  pose (o := solve 5 ctx None 0 st).
  pose (r := Scripted.value (FAILURE, None, 0, ctx) o).
  destruct (@solve_writes_trajectory_on_success_only Scripted.env 5 ctx None 0
              st (fst (fst (fst r))) (snd (fst (fst r))) (snd (fst r)) (snd r)
              (Scripted.final o))
    as (_ & Hs).
  - vm_cast_no_check (eq_refl o).
  - destruct Hs as (sc & scene & earlier & a & Hc & _ & Ha & Hp & _).
    + vm_cast_no_check (eq_refl SUCCESS).
    + exists sc, earlier, a. split; [exact Hc|]. split; [exact Ha | exact Hp].
Defined.


Lemma solve_budgets_are_positive_witness :
  exists start_config attempts,
    calls (Scripted.final
             (solve 5
                (setMotionPlanRequest Scripted.configured Scripted.one_goal)
                None 0 (Scripted.begin Scripted.second_call)))
    = calls (Scripted.begin Scripted.second_call)
      ++ map (attempt_call start_config) attempts /\
    Forall (fun a => 0 < a_timeout a) attempts.
Proof.
  pose (ctx := setMotionPlanRequest Scripted.configured Scripted.one_goal).
  pose (st := Scripted.begin Scripted.second_call).
  pose (o := solve 5 ctx None 0 st).
  pose (r := Scripted.value (FAILURE, None, 0, ctx) o).
  destruct (@solve_budgets_are_positive Scripted.env 5 ctx None 0 st
              (fst (fst (fst r))) (snd (fst (fst r))) (snd (fst r)) (snd r)
              (Scripted.final o))
    as (sc & attempts & Hc & Hb).
  - vm_cast_no_check (eq_refl o).
  - exists sc, attempts. split; [exact Hc | exact Hb].
Defined.



Lemma initStartState_rejects_missing_joint_witness :
  exists start_config ctx',
    initStartState (with_joint_state Scripted.configured Scripted.shoulder_only)
      (Scripted.begin Scripted.first_call)
      = Done ((false, start_config, ctx'), Scripted.begin Scripted.first_call).
Proof.
  apply (@initStartState_rejects_missing_joint Scripted.env
           (with_joint_state Scripted.configured Scripted.shoulder_only)
           (Scripted.begin Scripted.first_call) Scripted.arm "elbow"%string).
  - vm_cast_no_check (eq_refl (Some Scripted.arm)).
  - discriminate.
  - reflexivity.
  - repeat constructor; simpl; intuition discriminate.
  - assert (Hn : joint_model_names_
                   (with_joint_state Scripted.configured Scripted.shoulder_only)
                 = ["shoulder"; "elbow"]%string)
      by (vm_cast_no_check (eq_refl ["shoulder"; "elbow"]%string)).
    rewrite Hn. right. left. reflexivity.
  - simpl. intros [H|[]]. discriminate H.
Defined.

Lemma solve_empty_goal_constraints_witness :
  exists ctx' st',
    solve 5 (setMotionPlanRequest Scripted.after_first_call Scripted.no_goals)
      None 7 (Scripted.begin Scripted.second_call)
      = Done ((FAILURE, None, 7, ctx'), st') /\
    calls st' = calls (Scripted.begin Scripted.second_call).
Proof.
  exact (@solve_empty_goal_constraints Scripted.env 5
           (setMotionPlanRequest Scripted.after_first_call Scripted.no_goals)
           None 7 (Scripted.begin Scripted.second_call) eq_refl).
Defined.

Lemma solve_without_candidates_witness :
  exists ctx' st',
    solve 5 (setMotionPlanRequest Scripted.configured Scripted.far_goal) None 7
      (Scripted.begin Scripted.unresolved_call)
      = Done ((FAILURE, None, 7, ctx'), st') /\
    calls st' = calls (Scripted.begin Scripted.unresolved_call).
Proof.
  pose (ctx := setMotionPlanRequest Scripted.configured Scripted.far_goal).
  pose (st := Scripted.begin Scripted.unresolved_call).
  pose (o0 := Time_now st).
  pose (o1 := initRapidPlanGoals 5
                (set_terminate_plan_time_ ctx
                   (Scripted.value 0%Z o0 +
                    Duration_fromSec (allowed_planning_time (request_ ctx)))%Z)
                (goal_constraints (request_ ctx)) (goals_ ctx)
                (Scripted.final o0)).
  pose (r1 := Scripted.value (true, [], ctx) o1).
  destruct (@solve_without_candidates Scripted.env 5 ctx None 7 st
              (Scripted.value 0%Z o0) (Scripted.final o0) (fst (fst r1))
              (snd r1) (Scripted.final o1))
    as (Hrun & Hc).
  - vm_cast_no_check (eq_refl true).
  - vm_cast_no_check (eq_refl o0).
  - vm_cast_no_check (eq_refl o1).
  - do 2 eexists. split; [exact Hrun | exact Hc].
Defined.

Lemma solve_keeps_old_goals_witness :
  exists resolved,
    goals_
      (snd (Scripted.value
              (FAILURE, None, 0,
               setMotionPlanRequest Scripted.after_first_call Scripted.other_goal)
              (solve 5
                 (setMotionPlanRequest Scripted.after_first_call
                    Scripted.other_goal)
                 None 0 (Scripted.begin Scripted.second_call))))
    = goals_ (setMotionPlanRequest Scripted.after_first_call Scripted.other_goal)
      ++ resolved.
Proof.
  pose (ctx := setMotionPlanRequest Scripted.after_first_call Scripted.other_goal).
  pose (st := Scripted.begin Scripted.second_call).
  pose (o := solve 5 ctx None 0 st).
  pose (r := Scripted.value (FAILURE, None, 0, ctx) o).
  destruct (@solve_keeps_old_goals Scripted.env 5 ctx None 0 st
              (fst (fst (fst r))) (snd (fst (fst r))) (snd (fst r)) (snd r)
              (Scripted.final o))
    as (resolved & Hr).
  - vm_cast_no_check (eq_refl o).
  - exists resolved. exact Hr.
Defined.
